(** * m_save_output: batch capture of one command over a CSV device list

    A shallow embedding of [src/m_save_output.py] ([script_main] and
    [per_device_work]) together with the properties of its control flow.

    The script is orchestration glue over collaborators that live in the
    [securecrt_tools] package (the session handle, the settings store, the
    script object).  Those collaborators are kept abstract: a type class
    gives, for every call the script makes, a transition of an abstract
    world that either returns a value or raises.  The script itself is a
    computation in a small monad that threads the world, records every
    call it makes together with its outcome, and propagates exceptions the
    way Python does.  [logger.debug] lines have no influence on control
    flow and are left out. *)

From Stdlib Require Import String Ascii List Bool Arith Lia.
Import ListNotations.
Open Scope string_scope.
Open Scope list_scope.

(** ** Python string operations used by the script *)

Module PyStr.

  (** [str.lower] on a byte string: only the letters A-Z change. *)
Definition lower_ascii (c : ascii) : ascii :=
    let n := nat_of_ascii c in
    if ((65 <=? n) && (n <=? 90))%nat then ascii_of_nat (n + 32) else c.

Fixpoint lower (s : string) : string :=
    match s with
    | EmptyString => EmptyString
    | String c r => String (lower_ascii c) (lower r)
    end.

  (** [needle in hay]: substring test. *)
Fixpoint contains (needle hay : string) : bool :=
    String.prefix needle hay ||
    match hay with
    | EmptyString => false
    | String _ r => contains needle r
    end.

  (** The characters [str.strip()] removes: space, tab, line feed,
      vertical tab, form feed, carriage return. *)
Definition is_space (c : ascii) : bool :=
    let n := nat_of_ascii c in
    ((n =? 32) || ((9 <=? n) && (n <=? 13)))%nat.

Fixpoint lstrip (s : string) : string :=
    match s with
    | EmptyString => EmptyString
    | String c r => if is_space c then lstrip r else s
    end.

Fixpoint rstrip (s : string) : string :=
    match s with
    | EmptyString => EmptyString
    | String c r =>
        match rstrip r with
        | EmptyString => if is_space c then EmptyString else String c EmptyString
        | r' => String c r'
        end
    end.

Definition strip (s : string) : string := rstrip (lstrip s).

  (** [s.split(".")[0]]: everything before the first dot. *)
Fixpoint before_dot (s : string) : string :=
    match s with
    | EmptyString => EmptyString
    | String c r => if Ascii.eqb c "."%char then EmptyString
                    else String c (before_dot r)
    end.

  (** The line terminator written by the failure handlers. *)
Definition nl : string := String (ascii_of_nat 10) EmptyString.

  (** Truth value of a string: empty is false. *)
Definition truthy (s : string) : bool := negb (String.eqb s "").

End PyStr.

(** ** Data model *)

(** One row of the CSV device list. *)
Record device := Device {
  hostname : string;
  protocol : string;
  username : string;
  password : string;
  enable : string
}.

(** The exception classes the script names, and one for everything else. *)
Inductive exn :=
| ConnectError (message : string)
| InteractionError (message : string)
| ScriptError (message : string)
| OtherException (message : string).

Definition result (A : Type) : Type := (exn + A)%type.

(** Calls into the collaborator layer, with the arguments the script
    passes.  A keyword argument that a call site may leave out is an
    [option]: [None] means the argument is not passed. *)
Inductive call :=
| GetMainSession
| IsConnected
| ImportDeviceList
| PromptWindow (message : string) (hide_input : option bool)
| SettingsGetBoolean (section option_name : string)
| SettingsGet (section option_name : string)
| SettingsUpdate (section option_name value : string)
| CreateOutputFilename (desc : string) (include_hostname : option bool)
| Connect (host user pass proto : string)
| ConnectSsh (host user pass : string) (prompt_endings : list string)
| SshViaJump (host user pass : string)
| TelnetViaJump (host user pass : string)
| Disconnect
| DisconnectViaJump
| StartCiscoSession (enable_pass : string)
| WriteOutputToFile (command filename : string)
| EndCiscoSession.

(** What each call returns when it does not raise.  [settings.get] may
    yield [None] or a string; both [None] and the empty string are false
    for [if not ...]. *)
Definition resp (c : call) : Type :=
  match c with
  | IsConnected | SettingsGetBoolean _ _ => bool
  | ImportDeviceList => list device
  | PromptWindow _ _ | CreateOutputFilename _ _ => string
  | SettingsGet _ _ => option string
  | _ => unit
  end.

(** Values as they are recorded in the trace. *)
Inductive value :=
| VNone
| VBool (b : bool)
| VStr (s : string)
| VDevices (l : list device).

Definition to_value (c : call) : resp c -> value :=
  match c return resp c -> value with
  | IsConnected | SettingsGetBoolean _ _ => VBool
  | ImportDeviceList => VDevices
  | PromptWindow _ _ | CreateOutputFilename _ _ => VStr
  | SettingsGet _ _ => fun o => match o with Some s => VStr s | None => VNone end
  | _ => fun _ => VNone
  end.

Inductive outcome :=
| Returned (v : value)
| Raised (e : exn).

(** What the script does that is visible from outside: collaborator calls
    with their outcome, and text appended to a file opened in mode 'a'. *)
Inductive event :=
| Called (c : call) (o : outcome)
| Appended (path text : string).

(** The collaborator layer: every call is a transition of the world that
    returns or raises. *)
Class Collaborators (W : Type) := {
  perform : forall c : call, W -> W * result (resp c)
}.

(** ** The monad of the script *)

Record run (W A : Type) := Run {
  world : W;
  trace : list event;
  outcome_of : result A
}.

Arguments Run {W A} _ _ _.
Arguments world {W A} _.
Arguments trace {W A} _.
Arguments outcome_of {W A} _.

Definition M (W A : Type) : Type := W -> run W A.

Section Monad.
Context {W : Type}.

Definition ret {A} (a : A) : M W A := fun w => Run w [] (inr a).

Definition raise {A} (e : exn) : M W A := fun w => Run w [] (inl e).

Definition bind {A B} (m : M W A) (k : A -> M W B) : M W B :=
    fun w =>
      let r := m w in
      match outcome_of r with
      | inl e => Run (world r) (trace r) (inl e)
      | inr a =>
          let r' := k a (world r) in
          Run (world r') (trace r ++ trace r') (outcome_of r')
      end.

  (** [try: m except ...: h].  The handler table [h] answers [None] for
      an exception class no clause names; that exception then leaves the
      statement.  An exception raised inside a handler is not caught. *)
Definition try_except {A} (m : M W A) (h : exn -> option (M W A)) : M W A :=
    fun w =>
      let r := m w in
      match outcome_of r with
      | inr a => r
      | inl e =>
          match h e with
          | None => r
          | Some k =>
              let r' := k (world r) in
              Run (world r') (trace r ++ trace r') (outcome_of r')
          end
      end.

(** [with open(path, 'a') as f: f.write(text)].  The write is taken to
    go through: the file system is not among the collaborators, and a
    run in which [open] or [write] raises is not a run of this model.
    The statements below that say a line is appended take a writable
    failure log for granted; the others hold whether or not it is, since
    an error of the file system is of none of the classes the handlers
    name and ends the loop like any exception they do not catch. *)
Definition append_file (path text : string) : M W unit :=
    fun w => Run w [Appended path text] (inr tt).

Context `{Collaborators W}.

  (** A collaborator call: the world moves, the call and its outcome are
      recorded. *)
Definition invoke (c : call) : M W (resp c) :=
    fun w =>
      let '(w', r) := perform c w in
      match r with
      | inl e => Run w' [Called c (Raised e)] (inl e)
      | inr a => Run w' [Called c (Returned (to_value c a))] (inr a)
      end.

End Monad.

Notation "x <- m ;; k" := (bind m (fun x => k))
  (at level 61, m at next level, right associativity).
Notation "m ;; k" := (bind m (fun _ => k))
  (at level 61, right associativity).

(** ** The script *)

(** The jump-box profile gathered by lines 68-84.  The names are bound
    only when [use_jumpbox] is true, and read only then. *)
Record jump_profile := JumpProfile {
  jumpbox : string;
  j_username : string;
  j_password : string;
  j_ending : string
}.

Section Script.
Context {W : Type} `{Collaborators W}.

(** [not v] for what [settings.get] returns. *)
Definition missing (v : option string) : bool :=
match v with
| None => true
| Some s => negb (PyStr.truthy s)
end.

(** Lines 150-168. *)
Definition per_device_work (enable_pass send_cmd : string) : M W unit :=
  invoke (StartCiscoSession enable_pass) ;;
  full_file_name <- invoke (CreateOutputFilename send_cmd None) ;;
  invoke (WriteOutputToFile send_cmd full_file_name) ;;
  invoke EndCiscoSession.

(** The text written by the handlers of lines 114, 127 and 138. *)
Definition connect_failed_line (host msg : string) : string :=
  ("Connect to " ++ host ++ " failed: " ++ PyStr.strip msg ++ PyStr.nl)%string.

(** The text written by the handler of line 141. *)
Definition failure_on_line (host msg : string) : string :=
  ("Failure on " ++ host ++ ": " ++ PyStr.strip msg ++ PyStr.nl)%string.

(** [except (sessions.ConnectError, sessions.InteractionError) as e],
    lines 112-116 and 125-129. *)
Definition jump_handler (failed_log host : string) (e : exn) : option (M W bool) :=
match e with
| ConnectError msg | InteractionError msg =>
    Some (append_file failed_log (connect_failed_line host msg) ;;
          invoke Disconnect ;;
          ret false)
| _ => None
end.

(** The two [except] clauses of lines 136-141. *)
Definition direct_handler (failed_log host : string) (jump_connected : bool)
  (e : exn) : option (M W bool) :=
match e with
| ConnectError msg =>
    Some (append_file failed_log (connect_failed_line host msg) ;;
          ret jump_connected)
| InteractionError msg =>
    Some (append_file failed_log (failure_on_line host msg) ;;
          ret jump_connected)
| _ => None
end.

(** The [try] block of lines 106-111 (and 119-124), with the tunnel call
    of the branch as a parameter.  It yields the value of
    [jump_connected] at the end of the block. *)
Definition jump_try (jb : jump_profile) (tunnel : call)
  (enable_pass send_cmd : string) (jump_connected : bool) : M W bool :=
  jc <- (if negb jump_connected
         then invoke (ConnectSsh (jumpbox jb) (j_username jb) (j_password jb)
                                 [j_ending jb]) ;;
              ret true
         else ret jump_connected) ;;
  invoke tunnel ;;
  per_device_work enable_pass send_cmd ;;
  invoke DisconnectViaJump ;;
  ret jc.

(** The body of the [for] loop, lines 96-141.  It yields the value of
    [jump_connected] after the iteration. *)
Definition loop_body (use_jumpbox : bool) (jb : jump_profile)
  (failed_log send_cmd : string) (d : device) (jump_connected : bool) : M W bool :=
  if use_jumpbox then
    if PyStr.contains "ssh" (PyStr.lower (protocol d)) then
      try_except
        (jump_try jb (SshViaJump (hostname d) (username d) (password d))
                  (enable d) send_cmd jump_connected)
        (jump_handler failed_log (hostname d))
    else if String.eqb (PyStr.lower (protocol d)) "telnet" then
      try_except
        (jump_try jb (TelnetViaJump (hostname d) (username d) (password d))
                  (enable d) send_cmd jump_connected)
        (jump_handler failed_log (hostname d))
    else ret jump_connected
  else
    try_except
      (invoke (Connect (hostname d) (username d) (password d) (protocol d)) ;;
       per_device_work (enable d) send_cmd ;;
       invoke Disconnect ;;
       ret jump_connected)
      (direct_handler failed_log (hostname d) jump_connected).

(** [for device in device_list], lines 95-141. *)
Fixpoint device_loop (use_jumpbox : bool) (jb : jump_profile)
  (failed_log send_cmd : string) (device_list : list device)
  (jump_connected : bool) : M W bool :=
match device_list with
| [] => ret jump_connected
| d :: rest =>
    jc <- loop_body use_jumpbox jb failed_log send_cmd d jump_connected ;;
    device_loop use_jumpbox jb failed_log send_cmd rest jc
end.

(** Lines 68-84: read the three settings, prompt for what is missing and
    write it back, always prompt for the password. *)
Definition jumpbox_section : M W jump_profile :=
  jumpbox0 <- invoke (SettingsGet "Global" "jumpbox_host") ;;
  j_username0 <- invoke (SettingsGet "Global" "jumpbox_user") ;;
  j_ending0 <- invoke (SettingsGet "Global" "jumpbox_prompt_end") ;;
  jumpbox1 <- (if missing jumpbox0 then
                 a <- invoke (PromptWindow "Enter the HOSTNAME or IP for the jumpbox" None) ;;
                 invoke (SettingsUpdate "Global" "jumpbox_host" a) ;;
                 ret a
               else ret (match jumpbox0 with Some s => s | None => "" end)) ;;
  j_username1 <- (if missing j_username0 then
                 a <- invoke (PromptWindow
                        ("JUMPBOX: Enter the USERNAME for " ++ jumpbox1)%string None) ;;
                 invoke (SettingsUpdate "Global" "jumpbox_user" a) ;;
                 ret a
               else ret (match j_username0 with Some s => s | None => "" end)) ;;
  j_password1 <- invoke (PromptWindow
                   ("JUMPBOX: Enter the PASSWORD for " ++ j_username1)%string (Some true)) ;;
  j_ending1 <- (if missing j_ending0 then
                 a <- invoke (PromptWindow
                        "Enter the last character of the jumpbox CLI prompt" None) ;;
                 invoke (SettingsUpdate "Global" "jumpbox_prompt_end" a) ;;
                 ret a
               else ret (match j_ending0 with Some s => s | None => "" end)) ;;
  ret (JumpProfile jumpbox1 j_username1 j_password1 j_ending1).

(** The device connect loop section, lines 91-145: the flag starts
    false, the failure log is named after the script, the devices are
    visited, and a jump-box session that is still up is closed.
    [script_name] is the module-level name computed at line 10 or 14. *)
Definition connect_loop_section (script_name : string) (use_jumpbox : bool)
  (jb : jump_profile) (send_cmd : string) (device_list : list device) : M W unit :=
  failed_log <- invoke (CreateOutputFilename
                          (PyStr.before_dot script_name ++ "-LOG")%string (Some false)) ;;
  jump_connected <- device_loop use_jumpbox jb failed_log send_cmd device_list false ;;
  if (jump_connected : bool) then invoke Disconnect else ret tt.

(** [script_main], lines 44-145.  Without the jump box the four jump-box
    names stay unbound; the profile passed on then is a placeholder that
    no branch reads. *)
Definition script_main (script_name : string) : M W unit :=
  invoke GetMainSession ;;
  connected <- invoke IsConnected ;;
  if (connected : bool) then
    raise (ScriptError "This script must be launched in a not-connected tab.")
  else
  device_list <- invoke ImportDeviceList ;;
  match (device_list : list device) with
  | [] => ret tt
  | _ :: _ =>
  send_cmd <- invoke (PromptWindow "Enter the command to capture on each device." None) ;;
  if String.eqb send_cmd "" then ret tt else
  use_jumpbox <- invoke (SettingsGetBoolean "Global" "use_jumpbox") ;;
  jb <- (if (use_jumpbox : bool) then jumpbox_section
         else ret (JumpProfile "" "" "" "")) ;;
  connect_loop_section script_name use_jumpbox jb send_cmd device_list
  end.

End Script.

(** ** Reading a trace *)

Definition calls (tr : list event) : list call :=
flat_map (fun e => match e with Called c _ => [c] | Appended _ _ => [] end) tr.

Definition is_returned (e : event) : bool :=
match e with
| Called _ (Raised _) => false
| _ => true
end.

(** No call of the trace raised. *)
Definition all_returned (tr : list event) : bool := forallb is_returned tr.

(** The first call that raised, with what it raised. *)
Fixpoint first_raised (tr : list event) : option (call * exn) :=
match tr with
| [] => None
| Called c (Raised e) :: _ => Some (c, e)
| _ :: rest => first_raised rest
end.

(** The message of an exception the [except] clauses of the loop name. *)
Definition handled (e : exn) : option string :=
match e with
| ConnectError m | InteractionError m => Some m
| _ => None
end.

(** Calls that try to reach a machine: the direct connect, the jump-box
    connect and the two tunnel calls. *)
Definition is_connection_attempt (c : call) : bool :=
match c with
| Connect _ _ _ _ | ConnectSsh _ _ _ _ | SshViaJump _ _ _ | TelnetViaJump _ _ _ => true
| _ => false
end.

(** Hosts of the devices a connection was attempted to, in order. *)
Definition attempted_hosts (tr : list event) : list string :=
flat_map (fun e => match e with
                   | Called (Connect h _ _ _) _
                   | Called (SshViaJump h _ _) _
                   | Called (TelnetViaJump h _ _) _ => [h]
                   | _ => []
                   end) tr.

(** A connection to a device was made: the direct connect or a tunnel
    call returned. *)
Definition connection_succeeded (tr : list event) : bool :=
existsb (fun e => match e with
                  | Called (Connect _ _ _ _) (Returned _)
                  | Called (SshViaJump _ _ _) (Returned _)
                  | Called (TelnetViaJump _ _ _) (Returned _) => true
                  | _ => false
                  end) tr.

Definition is_work_call (c : call) : bool :=
match c with
| StartCiscoSession _ | CreateOutputFilename _ None
| WriteOutputToFile _ _ | EndCiscoSession => true
| _ => false
end.

(** A call of the per-device work unit raised. *)
Definition work_raised (tr : list event) : bool :=
existsb (fun e => match e with
                  | Called c (Raised _) => is_work_call c
                  | _ => false
                  end) tr.

(** Output files: the file names of the [write_output_to_file] calls that
    returned. *)
Definition written_files (tr : list event) : list string :=
flat_map (fun e => match e with
                   | Called (WriteOutputToFile _ f) (Returned _) => [f]
                   | _ => []
                   end) tr.

(** What was appended to files, as (path, text) in order. *)
Definition appended (tr : list event) : list (string * string) :=
flat_map (fun e => match e with Appended p t => [(p, t)] | _ => [] end) tr.

(** Number of jump-box connects that were attempted. *)
Definition jump_connects (tr : list event) : nat :=
length (filter (fun c => match c with ConnectSsh _ _ _ _ => true | _ => false end)
               (calls tr)).

(** Number of full disconnects that were called. *)
Definition disconnects (tr : list event) : nat :=
length (filter (fun c => match c with Disconnect => true | _ => false end) (calls tr)).

(** Settings the script may write. *)
Definition is_jumpbox_setting (section option_name : string) : bool :=
String.eqb section "Global" &&
(String.eqb option_name "jumpbox_host" || String.eqb option_name "jumpbox_user"
 || String.eqb option_name "jumpbox_prompt_end").

(** The event is no [settings.update], or one that writes one of the
    three jump-box settings. *)
Definition update_in_frame (e : event) : bool :=
match e with
| Called (SettingsUpdate s k _) _ => is_jumpbox_setting s k
| _ => true
end.

(** Every [settings.update] of the trace writes one of the three jump-box
    settings. *)
Definition updates_within_jumpbox_settings (tr : list event) : bool :=
forallb update_in_frame tr.

(** Every event a computation can emit, in whatever world it runs,
    passes the test [P]. *)
Definition emits {W A : Type} (P : event -> bool) (m : M W A) : Prop :=
forall w : W, forallb P (trace (m w)) = true.

(** What [settings.get] returned, as a trace value. *)
Definition setting_value (v : option string) : value :=
match v with
| Some s => VStr s
| None => VNone
end.

(** The value a jump-box field ends up with: the stored one, or the
    answer [a] to the prompt when nothing is stored. *)
Definition stored_or (v : option string) (a : string) : string :=
if missing v then a
else match v with Some s => s | None => "" end.

(** Prompt for a missing setting and write the answer back; nothing when
    the setting is stored. *)
Definition ask_and_store (option_name message : string) (v : option string)
  (a : string) : list event :=
if missing v then
  [Called (PromptWindow message None) (Returned (VStr a));
   Called (SettingsUpdate "Global" option_name a) (Returned VNone)]
else [].

(** The jump-box dialogue as section 4.2 of the design describes it: the
    three settings are read; each missing one is asked for and written
    back; the password is asked for with hidden input every time and is
    written nowhere.  [v1 v2 v3] are the stored host, user name and
    prompt ending, [a1 a2 a3] the answers given for them, [pw] the
    password typed. *)
Definition jumpbox_dialogue (v1 v2 v3 : option string) (a1 a2 pw a3 : string)
  : list event :=
[Called (SettingsGet "Global" "jumpbox_host") (Returned (setting_value v1));
 Called (SettingsGet "Global" "jumpbox_user") (Returned (setting_value v2));
 Called (SettingsGet "Global" "jumpbox_prompt_end") (Returned (setting_value v3))]
++ ask_and_store "jumpbox_host" "Enter the HOSTNAME or IP for the jumpbox" v1 a1
++ ask_and_store "jumpbox_user"
     ("JUMPBOX: Enter the USERNAME for " ++ stored_or v1 a1)%string v2 a2
++ [Called (PromptWindow ("JUMPBOX: Enter the PASSWORD for " ++ stored_or v2 a2)%string
                         (Some true))
           (Returned (VStr pw))]
++ ask_and_store "jumpbox_prompt_end"
     "Enter the last character of the jumpbox CLI prompt" v3 a3.

(** The device is one the jump path serves: its protocol, lower-cased,
    contains "ssh" or equals "telnet" (lines 104 and 117). *)
Definition jump_routed (d : device) : bool :=
PyStr.contains "ssh" (PyStr.lower (protocol d))
|| String.eqb (PyStr.lower (protocol d)) "telnet".

(** Calls that come after the output was written: a failure there leaves
    the device's output file behind. *)
Definition after_write (c : call) : bool :=
match c with
| EndCiscoSession | Disconnect | DisconnectViaJump => true
| _ => false
end.

(** *** The shapes an iteration can take

    The relations below list the traces a straight-line block of calls
    can leave behind; the lemmas of the next part show that the script's
    blocks leave exactly these. *)

(** Traces of the work unit: the four calls in order, cut at the first
    that raises. *)
Inductive work_shape (enable_pass send_cmd : string) : list event -> result unit -> Prop :=
| ws_start (e : exn) :
    work_shape enable_pass send_cmd
      [Called (StartCiscoSession enable_pass) (Raised e)] (inl e)
| ws_name (e : exn) :
    work_shape enable_pass send_cmd
      [Called (StartCiscoSession enable_pass) (Returned VNone);
       Called (CreateOutputFilename send_cmd None) (Raised e)] (inl e)
| ws_write (e : exn) (f : string) :
    work_shape enable_pass send_cmd
      [Called (StartCiscoSession enable_pass) (Returned VNone);
       Called (CreateOutputFilename send_cmd None) (Returned (VStr f));
       Called (WriteOutputToFile send_cmd f) (Raised e)] (inl e)
| ws_end (e : exn) (f : string) :
    work_shape enable_pass send_cmd
      [Called (StartCiscoSession enable_pass) (Returned VNone);
       Called (CreateOutputFilename send_cmd None) (Returned (VStr f));
       Called (WriteOutputToFile send_cmd f) (Returned VNone);
       Called EndCiscoSession (Raised e)] (inl e)
| ws_done (f : string) :
    work_shape enable_pass send_cmd
      [Called (StartCiscoSession enable_pass) (Returned VNone);
       Called (CreateOutputFilename send_cmd None) (Returned (VStr f));
       Called (WriteOutputToFile send_cmd f) (Returned VNone);
       Called EndCiscoSession (Returned VNone)] (inr tt).

(** Traces of "open a connection, do the work, close it": [opening] is
    the direct connect or a tunnel call, [closing] the matching
    disconnect.  The second index is the exception that left the block,
    if any. *)
Inductive block_shape (opening closing : call) (enable_pass send_cmd : string)
  : list event -> option exn -> Prop :=
| bs_open (e : exn) :
    block_shape opening closing enable_pass send_cmd
      [Called opening (Raised e)] (Some e)
| bs_work (e : exn) (tw : list event) :
    work_shape enable_pass send_cmd tw (inl e) ->
    block_shape opening closing enable_pass send_cmd
      (Called opening (Returned VNone) :: tw) (Some e)
| bs_close (e : exn) (tw : list event) :
    work_shape enable_pass send_cmd tw (inr tt) ->
    block_shape opening closing enable_pass send_cmd
      (Called opening (Returned VNone) :: tw ++ [Called closing (Raised e)]) (Some e)
| bs_done (tw : list event) :
    work_shape enable_pass send_cmd tw (inr tt) ->
    block_shape opening closing enable_pass send_cmd
      (Called opening (Returned VNone) :: tw ++ [Called closing (Returned VNone)]) None.

(** Traces of the [try] block of the jump path: the jump-box connect
    comes first when the flag is down. *)
Inductive jump_try_shape (jb : jump_profile) (tunnel : call)
  (enable_pass send_cmd : string) (jump_connected : bool)
  : list event -> option exn -> Prop :=
| jts_connect (e : exn) :
    jump_connected = false ->
    jump_try_shape jb tunnel enable_pass send_cmd jump_connected
      [Called (ConnectSsh (jumpbox jb) (j_username jb) (j_password jb) [j_ending jb])
              (Raised e)] (Some e)
| jts_block (tb : list event) (res : option exn) :
    block_shape tunnel DisconnectViaJump enable_pass send_cmd tb res ->
    jump_try_shape jb tunnel enable_pass send_cmd jump_connected
      ((if jump_connected then []
        else [Called (ConnectSsh (jumpbox jb) (j_username jb) (j_password jb) [j_ending jb])
                     (Returned VNone)]) ++ tb) res.

(** What the direct path makes of its [try] block (lines 136-141). *)
Definition direct_finish (failed_log host : string) (jump_connected : bool)
  (tb : list event) (res : option exn) : list event * result bool :=
match res with
| None => (tb, inr jump_connected)
| Some (ConnectError m) =>
    (tb ++ [Appended failed_log (connect_failed_line host m)], inr jump_connected)
| Some (InteractionError m) =>
    (tb ++ [Appended failed_log (failure_on_line host m)], inr jump_connected)
| Some e => (tb, inl e)
end.

(** What the jump path makes of its [try] block (lines 112-116); [o] is
    how the handler's disconnect turns out. *)
Definition jump_finish (failed_log host : string) (tb : list event)
  (res : option exn) (o : outcome) : list event * result bool :=
match res with
| None => (tb, inr true)
| Some e =>
    match handled e with
    | Some m =>
        (tb ++ [Appended failed_log (connect_failed_line host m); Called Disconnect o],
         match o with
         | Returned _ => inr false
         | Raised e' => inl e'
         end)
    | None => (tb, inl e)
    end
end.

(** The tunnel call of a jump-routed device. *)
Definition tunnel_call (d : device) : call :=
if PyStr.contains "ssh" (PyStr.lower (protocol d))
then SshViaJump (hostname d) (username d) (password d)
else TelnetViaJump (hostname d) (username d) (password d).

(** How many jump-box connects the flag still allows before a failure:
    one when it is down, none when it is up. *)
Definition connects_due (jump_connected : bool) : nat :=
if jump_connected then 0 else 1.

(** Modelled from the spec: the connectivity of the session handle, which
    is not in the source at hand.  The handle "represents one live
    connection": a [connect] or [connect_ssh] that returns opens it, a
    [disconnect] that returns closes it, the tunnel calls and the vendor
    session calls leave it as it is. *)
Definition session_step (open : bool) (e : event) : bool :=
match e with
| Called (Connect _ _ _ _) (Returned _) | Called (ConnectSsh _ _ _ _) (Returned _) => true
| Called Disconnect (Returned _) => false
| _ => open
end.

Definition session_open (open : bool) (tr : list event) : bool :=
fold_left session_step tr open.

(** The exception a run ended with, if any. *)
Definition raised {W A : Type} (r : run W A) : option exn :=
match outcome_of r with
| inl e => Some e
| inr _ => None
end.

(** [tr] goes through the calls of [full] in order, with the same
    arguments: all of them when nothing raised, and otherwise up to its
    last call, which [full] has returning and [tr] has raising [e]. *)
Definition follows_until_raise (full tr : list event) (res : option exn) : Prop :=
match res with
| None => tr = full
| Some e =>
    exists (n : nat) (c : call) (v : value),
      nth_error full n = Some (Called c (Returned v))
      /\ tr = firstn n full ++ [Called c (Raised e)]
end.

(** [seg] is what one execution of the loop body for device [d] leaves
    in the trace, from some value of the flag and some world. *)
Definition iteration_of {W : Type} `{Collaborators W} (use_jumpbox : bool)
  (jb : jump_profile) (failed_log send_cmd : string) (d : device)
  (seg : list event) : Prop :=
exists (jump_connected : bool) (w : W),
  seg = trace (loop_body use_jumpbox jb failed_log send_cmd d jump_connected w).

(** *** Further readings of a trace *)

(** The loop serves the device: always in the direct path, and in the
    jump path when the protocol selects a tunnel. *)
Definition served (use_jumpbox : bool) (d : device) : bool :=
if use_jumpbox then jump_routed d else true.

(** Along the trace, every tunnel call is made while the session is
    open, starting from the state [open]. *)
Fixpoint tunnels_while_open (open : bool) (tr : list event) : bool :=
match tr with
| [] => true
| e :: rest =>
    match e with
    | Called (SshViaJump _ _ _) _ | Called (TelnetViaJump _ _ _) _ => open
    | _ => true
    end
    && tunnels_while_open (session_step open e) rest
end.

(** The event is a connect or a tunnel call that returned. *)
Definition is_connection_made (e : event) : bool :=
match e with
| Called (Connect _ _ _ _) (Returned _)
| Called (SshViaJump _ _ _) (Returned _)
| Called (TelnetViaJump _ _ _) (Returned _) => true
| _ => false
end.

(** Along the trace, every start of a vendor session comes right after
    a connection that was made; [prev] says whether the event before the
    trace was one. *)
Fixpoint work_follows_connect (prev : bool) (tr : list event) : bool :=
match tr with
| [] => true
| e :: rest =>
    match e with
    | Called (StartCiscoSession _) _ => prev
    | _ => true
    end
    && work_follows_connect (is_connection_made e) rest
end.

(** A computation that, when it ends with an exception, ends with the
    call that raised it. *)
Definition raises_last {W A : Type} (m : M W A) : Prop :=
forall w : W,
  match outcome_of (m w) with
  | inl e => exists t c, trace (m w) = t ++ [Called c (Raised e)]
  | inr _ => True
  end.

(** Events of the part of a run that talks to the operator and the
    settings store. *)
Definition is_setup_event (e : event) : bool :=
match e with
| Called GetMainSession _ | Called IsConnected _ | Called ImportDeviceList _
| Called (PromptWindow _ _) _ | Called (SettingsGetBoolean _ _) _
| Called (SettingsGet _ _) _ | Called (SettingsUpdate _ _ _) _ => true
| _ => false
end.

(** Events of the part of a run that talks to the session and writes the
    failure log. *)
Definition is_session_event (e : event) : bool := negb (is_setup_event e).

(** A computation whose every trace is a setup part followed by a
    session part. *)
Definition setup_then_session {W A : Type} (m : M W A) : Prop :=
forall w : W,
  exists pre post,
    trace (m w) = pre ++ post
    /\ forallb is_setup_event pre = true
    /\ forallb is_session_event post = true.

(** The event uses nothing of the jump box: no jump-box connect, no
    tunnel, no tunnel disconnect, no jump-box setting, no hidden
    prompt. *)
Definition is_jump_free (e : event) : bool :=
match e with
| Called (ConnectSsh _ _ _ _) _ | Called (SshViaJump _ _ _) _
| Called (TelnetViaJump _ _ _) _ | Called DisconnectViaJump _
| Called (SettingsGet _ _) _ | Called (SettingsUpdate _ _ _) _
| Called (PromptWindow _ (Some _)) _ => false
| _ => true
end.

(** The event is no direct connect. *)
Definition is_no_direct_connect (e : event) : bool :=
match e with
| Called (Connect _ _ _ _) _ => false
| _ => true
end.

(** The event is not the reading of the jump-box switch. *)
Definition is_no_switch_read (e : event) : bool :=
match e with
| Called (SettingsGetBoolean _ _) _ => false
| _ => true
end.

(** The event is one the loop may emit while it handles device [d]: in
    the direct path a connect with the host, user name, password and
    protocol of [d]; in the jump path the jump-box connect with the
    profile, a tunnel with the host, user name and password of [d], the
    tunnel disconnect; in both the vendor session started with the
    enable secret of [d], the file name derived from the command, the
    command written, the end of the vendor session, the full
    disconnect, or a line appended to the failure log. *)
Definition event_for (use_jumpbox : bool) (jb : jump_profile)
  (failed_log send_cmd : string) (d : device) (e : event) : bool :=
match e with
| Called (Connect h u p pr) _ =>
    negb use_jumpbox
    && String.eqb h (hostname d) && String.eqb u (username d)
    && String.eqb p (password d) && String.eqb pr (protocol d)
| Called (SshViaJump h u p) _ | Called (TelnetViaJump h u p) _ =>
    use_jumpbox
    && String.eqb h (hostname d) && String.eqb u (username d)
    && String.eqb p (password d)
| Called (ConnectSsh h u p ends) _ =>
    use_jumpbox
    && String.eqb h (jumpbox jb) && String.eqb u (j_username jb)
    && String.eqb p (j_password jb)
    && match ends with
       | [x] => String.eqb x (j_ending jb)
       | _ => false
       end
| Called DisconnectViaJump _ => use_jumpbox
| Called (StartCiscoSession en) _ => String.eqb en (enable d)
| Called (CreateOutputFilename c None) _ => String.eqb c send_cmd
| Called (WriteOutputToFile c _) _ => String.eqb c send_cmd
| Called EndCiscoSession _ | Called Disconnect _ => true
| Appended p _ => String.eqb p failed_log
| _ => false
end.

(** What the reading of the jump-box switch allows afterwards: with the
    switch on no direct connect, with the switch off nothing of the jump
    box. *)
Definition mode_event (use_jumpbox : bool) (e : event) : bool :=
if use_jumpbox then is_no_direct_connect e else is_jump_free e.

(** The switch as the settings store returned it. *)
Definition switch_read (use_jumpbox : bool) : event :=
Called (SettingsGetBoolean "Global" "use_jumpbox") (Returned (VBool use_jumpbox)).

(** A computation every run of which keeps to the path the switch it
    read selects. *)
Definition respects_switch {W A : Type} (m : M W A) : Prop :=
forall (w : W) (b : bool),
  In (switch_read b) (trace (m w)) ->
  forallb (mode_event b) (trace (m w)) = true.

(** A computation every run of which starts vendor sessions only right
    after a connection was made, whatever came before it. *)
Definition works_after_connect {W A : Type} (m : M W A) : Prop :=
forall (w : W) (prev : bool), work_follows_connect prev (trace (m w)) = true.

(** The event is no start of a vendor session. *)
Definition is_no_work_start (e : event) : bool :=
match e with
| Called (StartCiscoSession _) _ => false
| _ => true
end.

(** A setup event that is not the reading of the switch and fits either
    path. *)
Definition is_plain_setup (e : event) : bool :=
is_no_switch_read e && mode_event true e && mode_event false e.

(** The string consists of characters [strip] removes. *)
Fixpoint all_space (s : string) : bool :=
match s with
| EmptyString => true
| String c r => PyStr.is_space c && all_space r
end.

(** The string holds no dot. *)
Fixpoint no_dot (s : string) : bool :=
match s with
| EmptyString => true
| String c r => negb (Ascii.eqb c "."%char) && no_dot r
end.


(** The exception is of one of the three classes the script names. *)
Definition is_named_exception (e : exn) : bool :=
match e with
| OtherException _ => false
| _ => true
end.

(** ** A scripted collaborator layer

    A concrete world for running the script: fixed answers, and a fault
    table that says which calls raise.  It does not change over a run. *)

Module Sim.

Record sim := {
  sim_connected : bool;
  sim_devices : list device;
  sim_use_jumpbox : bool;
  sim_setting : string -> option string;
  sim_prompt : string -> string;
  sim_filename : string -> string;
  sim_fault : call -> option exn
}.

Definition answer (w : sim) (c : call) : resp c :=
match c return resp c with
| IsConnected => sim_connected w
| SettingsGetBoolean _ _ => sim_use_jumpbox w
| ImportDeviceList => sim_devices w
| PromptWindow m _ => sim_prompt w m
| CreateOutputFilename d _ => sim_filename w d
| SettingsGet _ k => sim_setting w k
| _ => tt
end.

#[global] Instance sim_collaborators : Collaborators sim := {
  perform c w :=
    match sim_fault w c with
    | Some e => (w, inl e)
    | None => (w, inr (answer w c))
    end
}.

Definition no_fault : call -> option exn := fun _ => None.

(** The prompt answers of the examples: the command, the jump-box
    password, and a fixed answer for every other question. *)
Definition prompt_answers (m : string) : string :=
if String.eqb m "Enter the command to capture on each device." then "show version"
else if String.prefix "JUMPBOX: Enter the PASSWORD" m then "secret"
else "asked".

Definition filename_of (d : string) : string := ("/out/" ++ d ++ ".txt")%string.

Definition r1 : device := Device "r1" "SSH2" "admin" "pw1" "en1".
Definition r2 : device := Device "r2" "Telnet" "admin" "pw2" "en2".
Definition r3 : device := Device "r3" "serial" "admin" "pw3" "en3".

Definition jb0 : jump_profile := JumpProfile "jump" "op" "secret" "$".

(** Direct mode, nothing fails. *)
Definition direct_world (devs : list device) (fault : call -> option exn) : sim :=
{| sim_connected := false; sim_devices := devs; sim_use_jumpbox := false;
   sim_setting := fun _ => None; sim_prompt := prompt_answers;
   sim_filename := filename_of; sim_fault := fault |}.

(** Jump mode; the host is stored, the user name and the prompt ending
    are not. *)
Definition jump_world (devs : list device) (fault : call -> option exn) : sim :=
{| sim_connected := false; sim_devices := devs; sim_use_jumpbox := true;
   sim_setting := fun k => if String.eqb k "jumpbox_host" then Some "jump" else None;
   sim_prompt := prompt_answers;
   sim_filename := filename_of; sim_fault := fault |}.

(** The tab the script is launched on is connected. *)
Definition connected_world : sim :=
{| sim_connected := true; sim_devices := [r1]; sim_use_jumpbox := false;
   sim_setting := fun _ => None; sim_prompt := prompt_answers;
   sim_filename := filename_of; sim_fault := no_fault |}.

(** The operator enters nothing at any prompt. *)
Definition silent_world (devs : list device) : sim :=
{| sim_connected := false; sim_devices := devs; sim_use_jumpbox := true;
   sim_setting := fun _ => None; sim_prompt := fun _ => "";
   sim_filename := filename_of; sim_fault := no_fault |}.

(** The vendor session cannot be started: an interaction error after the
    connect. *)
Definition start_fails (c : call) : option exn :=
match c with
| StartCiscoSession _ => Some (InteractionError " no prompt ")
| _ => None
end.

(** The vendor session cannot be ended: an interaction error after the
    output was written. *)
Definition end_fails (c : call) : option exn :=
match c with
| EndCiscoSession => Some (InteractionError "stuck" )
| _ => None
end.

(** The tunnel to r1 cannot be opened. *)
Definition tunnel_r1_fails (c : call) : option exn :=
match c with
| SshViaJump h _ _ => if String.eqb h "r1" then Some (ConnectError "refused ") else None
| _ => None
end.

(** The direct connect to r2 is refused. *)
Definition connect_r2_fails (c : call) : option exn :=
match c with
| Connect h _ _ _ => if String.eqb h "r2" then Some (ConnectError " timed out") else None
| _ => None
end.

(** The tunnel to r1 breaks in a way no handler names. *)
Definition tunnel_breaks (c : call) : option exn :=
match c with
| SshViaJump _ _ _ => Some (OtherException "bug")
| _ => None
end.

(** The tunnel to r1 is refused, and the disconnect of the handler fails
    as well. *)
Definition handler_disconnect_fails (c : call) : option exn :=
match c with
| SshViaJump _ _ _ => Some (ConnectError "refused ")
| Disconnect => Some (ConnectError "hung")
| _ => None
end.

End Sim.

(** ** Equations of the monad *)

Section Equations.
Context {W : Type} `{Collaborators W}.

Lemma invoke_returns (c : call) (w w' : W) (a : resp c) :
  perform c w = (w', inr a) ->
  invoke c w = Run w' [Called c (Returned (to_value c a))] (inr a).
Proof. intros E. unfold invoke. rewrite E. reflexivity. Qed.

Lemma invoke_raises (c : call) (w w' : W) (e : exn) :
  perform c w = (w', inl e) ->
  invoke (W:=W) c w = Run w' [Called c (Raised e)] (inl e).
Proof. intros E. unfold invoke. rewrite E. reflexivity. Qed.

Lemma invoke_cases (c : call) (w : W) :
  (exists w' e, invoke c w = Run w' [Called c (Raised e)] (inl e)) \/
  (exists w' a, invoke c w = Run w' [Called c (Returned (to_value c a))] (inr a)).
Proof.
  unfold invoke. destruct (perform c w) as [w' [e | a]]; eauto.
Qed.

Lemma bind_returns {A B} (m : M W A) (k : A -> M W B) (w w1 : W) t1 a :
  m w = Run w1 t1 (inr a) ->
  bind m k w = Run (world (k a w1)) (t1 ++ trace (k a w1)) (outcome_of (k a w1)).
Proof. intros E. unfold bind. rewrite E. reflexivity. Qed.

Lemma bind_raises {A B} (m : M W A) (k : A -> M W B) (w w1 : W) t1 e :
  m w = Run w1 t1 (inl e) ->
  bind m k w = Run w1 t1 (inl e).
Proof. intros E. unfold bind. rewrite E. reflexivity. Qed.

Lemma run_eta {A} (r : run W A) : Run (world r) (trace r) (outcome_of r) = r.
Proof. destruct r; reflexivity. Qed.

End Equations.

(** Case analysis on the next collaborator call of the goal. *)
Ltac next_call :=
  match goal with
  | |- context [perform ?c ?w] =>
      let w' := fresh "w" in
      let e := fresh "e" in
      let a := fresh "a" in
      let E := fresh "E" in
      destruct (perform c w) as [w' [e | a]] eqn:E; cbn [world trace outcome_of] in *
  end.

(** Values of type [unit] are [tt]. *)
Ltac only_units :=
  repeat match goal with
         | a : resp _ |- _ => progress cbn in a
         | a : unit |- _ => destruct a
         end.

(** Rewrite the next call of the goal with its known outcome. *)
Ltac returns E :=
  erewrite bind_returns; [| apply invoke_returns; exact E];
  cbn [world trace outcome_of].

(** Take the shape relations of the context apart, down to explicit
    traces. *)
Ltac open_shapes :=
  repeat match goal with
         | S : jump_try_shape _ _ _ _ _ _ _ |- _ => inversion S; subst; clear S
         | S : block_shape _ _ _ _ _ _ |- _ => inversion S; subst; clear S
         | S : work_shape _ _ _ _ |- _ => inversion S; subst; clear S
         end.

(** Split the equation a shape lemma gives into trace and outcome and
    replace both everywhere. *)
Ltac use_finish Hf :=
  let Ht := fresh "Ht" in
  let Ho := fresh "Ho" in
  pose proof (f_equal fst Hf) as Ht; pose proof (f_equal snd Hf) as Ho;
  cbn [fst snd] in Ht, Ho; clear Hf; rewrite ?Ht, ?Ho in *; clear Ht Ho.

(** Make the exception and the outcome of the handler's disconnect
    explicit. *)
Ltac open_finish :=
  repeat match goal with
         | |- context [jump_finish _ _ _ (Some ?e) ?o] => is_var e; destruct e
         | |- context [jump_finish _ _ _ _ ?o] => is_var o; destruct o
         | |- context [direct_finish _ _ _ _ (Some ?e)] => is_var e; destruct e
         | H : context [jump_finish _ _ _ (Some ?e) ?o] |- _ => is_var e; destruct e
         | H : context [jump_finish _ _ _ _ ?o] |- _ => is_var o; destruct o
         | H : context [direct_finish _ _ _ _ (Some ?e)] |- _ => is_var e; destruct e
         end.

(** ** Properties *)

Section Properties.
Context {W : Type} `{Collaborators W}.

(** C6.  Launched on a session that is already connected, [script_main]
    raises the script error at once: the only calls made are the ones
    that fetch the session and ask whether it is connected; the device
    list is not loaded, nothing is prompted, no connection is tried. *)
Theorem connected_tab_aborts (script_name : string) (w w1 w2 : W) (u : unit) :
  perform GetMainSession w = (w1, inr u) ->
  perform IsConnected w1 = (w2, inr true) ->
  script_main script_name w =
    Run w2
        [Called GetMainSession (Returned VNone);
         Called IsConnected (Returned (VBool true))]
        (inl (ScriptError "This script must be launched in a not-connected tab.")).
Proof.
  intros E1 E2. unfold script_main.
  returns E1. returns E2. reflexivity.
Qed.

(** C5.  With an empty device list, or with an empty command string,
    [script_main] returns normally right after the call that gave the
    empty answer: the trace is the three (or four) calls up to that
    answer and holds no connection attempt of any kind. *)
Theorem empty_input_returns_early (script_name : string) (w w1 w2 w3 : W)
  (u : unit) (device_list : list device) :
  perform GetMainSession w = (w1, inr u) ->
  perform IsConnected w1 = (w2, inr false) ->
  perform ImportDeviceList w2 = (w3, inr device_list) ->
  (device_list = [] ->
     script_main script_name w =
       Run w3
           [Called GetMainSession (Returned VNone);
            Called IsConnected (Returned (VBool false));
            Called ImportDeviceList (Returned (VDevices []))]
           (inr tt))
  /\
  (forall w4 : W,
     device_list <> [] ->
     perform (PromptWindow "Enter the command to capture on each device." None) w3
       = (w4, inr "") ->
     script_main script_name w =
       Run w4
           [Called GetMainSession (Returned VNone);
            Called IsConnected (Returned (VBool false));
            Called ImportDeviceList (Returned (VDevices device_list));
            Called (PromptWindow "Enter the command to capture on each device." None)
                   (Returned (VStr ""))]
           (inr tt))
  /\
  ((device_list = [] \/
    exists w4, perform (PromptWindow "Enter the command to capture on each device." None) w3
                 = (w4, inr "")) ->
   outcome_of (script_main script_name w) = inr tt /\
   existsb is_connection_attempt (calls (trace (script_main script_name w))) = false).
Proof.
  intros E1 E2 E3.
  assert (P1 : device_list = [] ->
     script_main script_name w =
       Run w3
           [Called GetMainSession (Returned VNone);
            Called IsConnected (Returned (VBool false));
            Called ImportDeviceList (Returned (VDevices []))]
           (inr tt)).
  { intros ->. unfold script_main.
    returns E1. returns E2. returns E3. reflexivity. }
  assert (P2 : forall w4 : W,
     device_list <> [] ->
     perform (PromptWindow "Enter the command to capture on each device." None) w3
       = (w4, inr "") ->
     script_main script_name w =
       Run w4
           [Called GetMainSession (Returned VNone);
            Called IsConnected (Returned (VBool false));
            Called ImportDeviceList (Returned (VDevices device_list));
            Called (PromptWindow "Enter the command to capture on each device." None)
                   (Returned (VStr ""))]
           (inr tt)).
  { intros w4 NE E4. unfold script_main.
    returns E1. returns E2. returns E3.
    destruct device_list as [|d rest]; [congruence|].
    returns E4. reflexivity. }
  split; [exact P1|]. split; [exact P2|].
  intros [Hd | [w4 E4]].
  - rewrite (P1 Hd). split; reflexivity.
  - destruct device_list as [|d rest].
    + rewrite (P1 eq_refl). split; reflexivity.
    + rewrite (P2 w4 ltac:(discriminate) E4). split; reflexivity.
Qed.

(** C9.  In jump mode a device whose protocol, lower-cased, neither
    contains "ssh" nor equals "telnet" is passed over: the iteration makes
    no call and appends nothing, leaves the world as it was and hands the
    jump-connected flag on unchanged. *)
Theorem jump_mode_skips_other_protocols (jb : jump_profile)
  (failed_log send_cmd : string) (d : device) (jump_connected : bool) (w : W) :
  PyStr.contains "ssh" (PyStr.lower (protocol d)) = false ->
  PyStr.lower (protocol d) <> "telnet" ->
  loop_body true jb failed_log send_cmd d jump_connected w = Run w [] (inr jump_connected).
Proof.
  intros Hssh Htel. unfold loop_body. rewrite Hssh.
  destruct (String.eqb_spec (PyStr.lower (protocol d)) "telnet") as [E | _].
  - contradiction.
  - reflexivity.
Qed.

(** The per-device work unit makes its four calls in order and stops at
    the first that raises. *)
Lemma per_device_work_cases (enable_pass send_cmd : string) (w : W) :
  let r := per_device_work enable_pass send_cmd w in
  (exists e, outcome_of r = inl e /\
     trace r = [Called (StartCiscoSession enable_pass) (Raised e)])
  \/ (exists e, outcome_of r = inl e /\
     trace r = [Called (StartCiscoSession enable_pass) (Returned VNone);
                Called (CreateOutputFilename send_cmd None) (Raised e)])
  \/ (exists e f, outcome_of r = inl e /\
     trace r = [Called (StartCiscoSession enable_pass) (Returned VNone);
                Called (CreateOutputFilename send_cmd None) (Returned (VStr f));
                Called (WriteOutputToFile send_cmd f) (Raised e)])
  \/ (exists e f, outcome_of r = inl e /\
     trace r = [Called (StartCiscoSession enable_pass) (Returned VNone);
                Called (CreateOutputFilename send_cmd None) (Returned (VStr f));
                Called (WriteOutputToFile send_cmd f) (Returned VNone);
                Called EndCiscoSession (Raised e)])
  \/ (exists f, outcome_of r = inr tt /\
     trace r = [Called (StartCiscoSession enable_pass) (Returned VNone);
                Called (CreateOutputFilename send_cmd None) (Returned (VStr f));
                Called (WriteOutputToFile send_cmd f) (Returned VNone);
                Called EndCiscoSession (Returned VNone)]).
Proof.
  unfold per_device_work, bind, invoke. cbv zeta.
  repeat next_call; cbn; only_units; eauto 20.
Qed.

(** What the work unit emits neither opens nor closes the session and is
    no full disconnect. *)
Lemma per_device_work_neutral (enable_pass send_cmd : string) (w : W) :
  disconnects (trace (per_device_work enable_pass send_cmd w)) = 0 /\
  forall open, session_open open (trace (per_device_work enable_pass send_cmd w)) = open.
Proof.
  destruct (per_device_work_cases enable_pass send_cmd w)
    as [(e & _ & ->) | [(e & _ & ->) | [(e & f & _ & ->) | [(e & f & _ & ->) | (f & _ & ->)]]]];
    split; reflexivity.
Qed.

Lemma session_open_app (open : bool) (t1 t2 : list event) :
  session_open open (t1 ++ t2) = session_open (session_open open t1) t2.
Proof. unfold session_open. apply fold_left_app. Qed.

Lemma calls_app (t1 t2 : list event) : calls (t1 ++ t2) = calls t1 ++ calls t2.
Proof. unfold calls. apply flat_map_app. Qed.

Lemma disconnects_app (t1 t2 : list event) :
  disconnects (t1 ++ t2) = disconnects t1 + disconnects t2.
Proof. unfold disconnects. now rewrite calls_app, filter_app, length_app. Qed.

(** C10.  Direct path, the connect returned and the work unit raised an
    interaction error: the iteration is the connect, the calls of the
    work unit up to the one that raised, and the "Failure on" line
    appended to the failure log.  It calls no disconnect, so the session
    the connect opened is still open when the loop moves on, and the
    iteration ends normally. *)
Theorem direct_interaction_error_leaves_session_open (jb : jump_profile)
  (failed_log send_cmd : string) (d : device) (jump_connected : bool)
  (w w1 : W) (msg : string) :
  perform (Connect (hostname d) (username d) (password d) (protocol d)) w = (w1, inr tt) ->
  outcome_of (per_device_work (enable d) send_cmd w1) = inl (InteractionError msg) ->
  loop_body false jb failed_log send_cmd d jump_connected w =
    Run (world (per_device_work (enable d) send_cmd w1))
        (Called (Connect (hostname d) (username d) (password d) (protocol d))
                (Returned VNone)
         :: trace (per_device_work (enable d) send_cmd w1)
         ++ [Appended failed_log (failure_on_line (hostname d) msg)])
        (inr jump_connected)
  /\ disconnects (trace (loop_body false jb failed_log send_cmd d jump_connected w)) = 0
  /\ forall open : bool,
       session_open open
         (trace (loop_body false jb failed_log send_cmd d jump_connected w)) = true.
Proof.
  intros E Hw.
  assert (Eq : loop_body false jb failed_log send_cmd d jump_connected w =
    Run (world (per_device_work (enable d) send_cmd w1))
        (Called (Connect (hostname d) (username d) (password d) (protocol d))
                (Returned VNone)
         :: trace (per_device_work (enable d) send_cmd w1)
         ++ [Appended failed_log (failure_on_line (hostname d) msg)])
        (inr jump_connected)).
  { unfold loop_body, try_except. cbv zeta. returns E.
    destruct (per_device_work (enable d) send_cmd w1) as [w2 t2 o2] eqn:Ew.
    cbn in Hw. subst o2.
    erewrite bind_raises by exact Ew. reflexivity. }
  split; [exact Eq|]. rewrite Eq. cbn [trace].
  destruct (per_device_work_neutral (enable d) send_cmd w1) as [Hd Hs].
  split.
  - change (?x :: ?t ++ ?l) with ([x] ++ t ++ l).
    rewrite !disconnects_app, Hd. reflexivity.
  - intros open.
    change (?x :: ?t ++ ?l) with ([x] ++ t ++ l).
    rewrite !session_open_app, Hs. reflexivity.
Qed.

Lemma per_device_work_shape (enable_pass send_cmd : string) (w : W) :
  work_shape enable_pass send_cmd
    (trace (per_device_work enable_pass send_cmd w))
    (outcome_of (per_device_work enable_pass send_cmd w)).
Proof.
  destruct (per_device_work_cases enable_pass send_cmd w)
    as [(e & -> & ->) | [(e & -> & ->) | [(e & f & -> & ->)
       | [(e & f & -> & ->) | (f & -> & ->)]]]]; constructor.
Qed.

(** Open, work, close: the block leaves one of the four block shapes. *)
Lemma block_runs (opening closing : call) (enable_pass send_cmd : string)
  (b : bool) (w : W) :
  (forall a, to_value opening a = VNone) ->
  (forall a, to_value closing a = VNone) ->
  let r := (invoke opening ;; per_device_work enable_pass send_cmd ;;
            invoke closing ;; ret b) w in
  exists res,
    block_shape opening closing enable_pass send_cmd (trace r) res /\
    outcome_of r = match res with Some e => inl e | None => inr b end.
Proof.
  intros Ho Hc. cbv zeta.
  destruct (invoke_cases opening w) as [(w1 & e & E) | (w1 & a & E)].
  - erewrite bind_raises by exact E. cbn [world trace outcome_of].
    exists (Some e). split; [constructor | reflexivity].
  - erewrite bind_returns by exact E. cbn [world trace outcome_of].
    rewrite Ho.
    pose proof (per_device_work_shape enable_pass send_cmd w1) as Hw.
    destruct (per_device_work enable_pass send_cmd w1) as [w2 tw [e | []]] eqn:Ew;
      cbn [world trace outcome_of] in Hw.
    + erewrite bind_raises by exact Ew. cbn [world trace outcome_of].
      exists (Some e). split; [now constructor | reflexivity].
    + erewrite bind_returns by exact Ew. cbn [world trace outcome_of].
      destruct (invoke_cases closing w2) as [(w3 & e & E') | (w3 & a' & E')].
      * erewrite bind_raises by exact E'. cbn [world trace outcome_of app].
        exists (Some e). split; [now constructor | reflexivity].
      * erewrite bind_returns by exact E'. cbn [world trace outcome_of ret].
        exists None. split; [| reflexivity]. rewrite Hc, app_nil_r. now constructor.
Qed.

Lemma try_except_run {A} (m : M W A) (h : exn -> option (M W A)) (w : W) :
  try_except m h w =
    match outcome_of (m w) with
    | inr _ => m w
    | inl e =>
        match h e with
        | None => m w
        | Some k =>
            Run (world (k (world (m w))))
                (trace (m w) ++ trace (k (world (m w))))
                (outcome_of (k (world (m w))))
        end
    end.
Proof. reflexivity. Qed.

(** The direct path: a block opened by [connect] and closed by
    [disconnect], then the outcome of the two [except] clauses. *)
Lemma direct_body_shape (jb : jump_profile) (failed_log send_cmd : string)
  (d : device) (jump_connected : bool) (w : W) :
  exists tb res,
    block_shape (Connect (hostname d) (username d) (password d) (protocol d))
                Disconnect (enable d) send_cmd tb res /\
    (trace (loop_body false jb failed_log send_cmd d jump_connected w),
     outcome_of (loop_body false jb failed_log send_cmd d jump_connected w))
    = direct_finish failed_log (hostname d) jump_connected tb res.
Proof.
  unfold loop_body. rewrite try_except_run.
  destruct (block_runs (Connect (hostname d) (username d) (password d) (protocol d))
              Disconnect (enable d) send_cmd jump_connected w
              (fun _ => eq_refl) (fun _ => eq_refl)) as (res & Hs & Ho).
  destruct ((invoke (Connect (hostname d) (username d) (password d) (protocol d)) ;;
             per_device_work (enable d) send_cmd ;;
             invoke Disconnect ;; ret jump_connected) w) as [wr tb ob].
  cbn [world trace outcome_of] in *. subst ob.
  exists tb, res. split; [exact Hs|].
  destruct res as [[m | m | m | m] |]; reflexivity.
Qed.

Lemma jump_try_runs (jb : jump_profile) (tunnel : call)
  (enable_pass send_cmd : string) (jump_connected : bool) (w : W) :
  (forall a, to_value tunnel a = VNone) ->
  exists res,
    jump_try_shape jb tunnel enable_pass send_cmd jump_connected
      (trace (jump_try jb tunnel enable_pass send_cmd jump_connected w)) res /\
    outcome_of (jump_try jb tunnel enable_pass send_cmd jump_connected w)
    = match res with Some e => inl e | None => inr true end.
Proof.
  intros Ht. unfold jump_try. destruct jump_connected; cbn [negb].
  - erewrite bind_returns by reflexivity. cbn [app].
    destruct (block_runs tunnel DisconnectViaJump enable_pass send_cmd true w Ht
                (fun _ => eq_refl)) as (res & Hs & Ho).
    exists res. split; [| rewrite run_eta; exact Ho].
    rewrite run_eta. exact (jts_block jb tunnel enable_pass send_cmd true _ _ Hs).
  - destruct (invoke_cases
                (ConnectSsh (jumpbox jb) (j_username jb) (j_password jb) [j_ending jb]) w)
      as [(w1 & e & E) | (w1 & a & E)].
    + assert (E1 : (invoke (ConnectSsh (jumpbox jb) (j_username jb) (j_password jb)
                                        [j_ending jb]) ;; ret true) w
                   = Run w1 [Called (ConnectSsh (jumpbox jb) (j_username jb) (j_password jb)
                                                [j_ending jb]) (Raised e)] (inl e))
        by (erewrite bind_raises by exact E; reflexivity).
      erewrite bind_raises by exact E1.
      exists (Some e). split; [now constructor | reflexivity].
    + assert (E1 : (invoke (ConnectSsh (jumpbox jb) (j_username jb) (j_password jb)
                                        [j_ending jb]) ;; ret true) w
                   = Run w1 [Called (ConnectSsh (jumpbox jb) (j_username jb) (j_password jb)
                                                [j_ending jb]) (Returned VNone)] (inr true))
        by (erewrite bind_returns by exact E; reflexivity).
      erewrite bind_returns by exact E1.
      cbn [world trace outcome_of].
      destruct (block_runs tunnel DisconnectViaJump enable_pass send_cmd true w1 Ht
                  (fun _ => eq_refl)) as (res & Hs & Ho).
      exists res. split; [| exact Ho].
      exact (jts_block jb tunnel enable_pass send_cmd false _ _ Hs).
Qed.

(** The handler of the jump path: one line, one full disconnect. *)
Lemma jump_handler_runs (failed_log host msg : string) (w : W) :
  exists o,
    trace ((append_file failed_log (connect_failed_line host msg) ;;
            invoke Disconnect ;; ret false) w)
    = [Appended failed_log (connect_failed_line host msg); Called Disconnect o] /\
    outcome_of ((append_file failed_log (connect_failed_line host msg) ;;
                 invoke Disconnect ;; ret false) w)
    = match o with Returned _ => inr false | Raised e' => inl e' end.
Proof.
  erewrite bind_returns by reflexivity. cbn [world trace outcome_of].
  destruct (invoke_cases Disconnect w) as [(w1 & e & E) | (w1 & a & E)].
  - erewrite bind_raises by exact E. exists (Raised e). split; reflexivity.
  - erewrite bind_returns by exact E. exists (Returned VNone). split; reflexivity.
Qed.

Lemma jump_branch_shape (jb : jump_profile) (failed_log send_cmd : string)
  (tunnel : call) (host enable_pass : string) (jump_connected : bool) (w : W) :
  (forall a, to_value tunnel a = VNone) ->
  let r := try_except (jump_try jb tunnel enable_pass send_cmd jump_connected)
                      (jump_handler failed_log host) w in
  exists tb res o,
    jump_try_shape jb tunnel enable_pass send_cmd jump_connected tb res /\
    (trace r, outcome_of r) = jump_finish failed_log host tb res o.
Proof.
  intros Ht. cbv zeta. rewrite try_except_run.
  destruct (jump_try_runs jb tunnel enable_pass send_cmd jump_connected w Ht)
    as (res & Hs & Ho).
  destruct (jump_try jb tunnel enable_pass send_cmd jump_connected w) as [wr tb ob].
  cbn [world trace outcome_of] in *. subst ob.
  exists tb, res.
  destruct res as [[m | m | m | m] |]; cbn [jump_handler jump_finish handled];
    try (exists (Returned VNone); split; [exact Hs | reflexivity]).
  - destruct (jump_handler_runs failed_log host m wr) as (o & -> & ->).
    exists o. split; [exact Hs | reflexivity].
  - destruct (jump_handler_runs failed_log host m wr) as (o & -> & ->).
    exists o. split; [exact Hs | reflexivity].
Qed.

(** The jump path for a device it serves: the [try] block, then the
    outcome of the handler. *)
Lemma jump_body_shape (jb : jump_profile) (failed_log send_cmd : string)
  (d : device) (jump_connected : bool) (w : W) :
  jump_routed d = true ->
  exists tb res o,
    jump_try_shape jb (tunnel_call d) (enable d) send_cmd jump_connected tb res /\
    (trace (loop_body true jb failed_log send_cmd d jump_connected w),
     outcome_of (loop_body true jb failed_log send_cmd d jump_connected w))
    = jump_finish failed_log (hostname d) tb res o.
Proof.
  unfold jump_routed, tunnel_call, loop_body. intros Hr.
  destruct (PyStr.contains "ssh" (PyStr.lower (protocol d))).
  - apply jump_branch_shape. reflexivity.
  - cbn [orb] in Hr. rewrite Hr. apply jump_branch_shape. reflexivity.
Qed.

Lemma jump_body_skip (jb : jump_profile) (failed_log send_cmd : string)
  (d : device) (jump_connected : bool) (w : W) :
  jump_routed d = false ->
  loop_body true jb failed_log send_cmd d jump_connected w = Run w [] (inr jump_connected).
Proof.
  unfold jump_routed, loop_body. intros Hr.
  apply orb_false_iff in Hr as [-> ->]. reflexivity.
Qed.

(** C1, as amended.  In an iteration where a connection to the device
    was made and no call of the work unit raised, the work unit ran in
    full: the vendor session was started, one file name was derived from
    the command text, the command output was written to that file, the
    vendor session was ended, in this order; and that file is the one
    output file of the iteration. *)
Theorem connected_and_worked_writes_one_file (use_jumpbox : bool) (jb : jump_profile)
  (failed_log send_cmd : string) (d : device) (jump_connected : bool) (w : W) :
  connection_succeeded
    (trace (loop_body use_jumpbox jb failed_log send_cmd d jump_connected w)) = true ->
  work_raised
    (trace (loop_body use_jumpbox jb failed_log send_cmd d jump_connected w)) = false ->
  exists (before after : list event) (full_file_name : string),
    trace (loop_body use_jumpbox jb failed_log send_cmd d jump_connected w)
    = before
      ++ [Called (StartCiscoSession (enable d)) (Returned VNone);
          Called (CreateOutputFilename send_cmd None) (Returned (VStr full_file_name));
          Called (WriteOutputToFile send_cmd full_file_name) (Returned VNone);
          Called EndCiscoSession (Returned VNone)]
      ++ after
    /\ written_files
         (trace (loop_body use_jumpbox jb failed_log send_cmd d jump_connected w))
       = [full_file_name].
Proof.
  destruct use_jumpbox.
  - destruct (jump_routed d) eqn:Hr.
    + destruct (jump_body_shape jb failed_log send_cmd d jump_connected w Hr)
        as (tb & res & o & Hs & Hf).
      use_finish Hf. unfold tunnel_call in Hs.
      destruct (PyStr.contains "ssh" (PyStr.lower (protocol d))), jump_connected;
        open_shapes; try discriminate; open_finish;
        cbn; try discriminate; intros _ _;
        first [ eexists [_], _, _; split; reflexivity
              | eexists [_; _], _, _; split; reflexivity ].
    + rewrite (jump_body_skip jb failed_log send_cmd d jump_connected w Hr).
      cbn. discriminate.
  - destruct (direct_body_shape jb failed_log send_cmd d jump_connected w)
      as (tb & res & Hs & Hf).
    use_finish Hf.
    open_shapes; open_finish; cbn; try discriminate; intros _ _;
      eexists [_], _, _; split; reflexivity.
Qed.

(** The loop goes on with the rest of the list after an iteration that
    ended normally. *)
Lemma device_loop_cons (use_jumpbox : bool) (jb : jump_profile)
  (failed_log send_cmd : string) (d : device) (rest : list device)
  (jump_connected jc' : bool) (w : W) :
  outcome_of (loop_body use_jumpbox jb failed_log send_cmd d jump_connected w) = inr jc' ->
  trace (device_loop use_jumpbox jb failed_log send_cmd (d :: rest) jump_connected w)
  = trace (loop_body use_jumpbox jb failed_log send_cmd d jump_connected w)
    ++ trace (device_loop use_jumpbox jb failed_log send_cmd rest jc'
                (world (loop_body use_jumpbox jb failed_log send_cmd d jump_connected w))).
Proof.
  intros Ho. cbn [device_loop]. unfold bind at 1. rewrite Ho. reflexivity.
Qed.

(** C2, as amended.  In an iteration whose first failing call raised a
    connect error or an interaction error, exactly one line is appended
    to the failure log; it names the device's host and carries the
    trimmed message.  No output file was written unless the failing call
    comes after the write (ending the vendor session, or a disconnect).
    The iteration then ends normally and the loop goes on with the next
    device: always in the direct path, and in the jump path when the
    handler's own disconnect returns. *)
Theorem handled_failure_is_logged_once (use_jumpbox : bool) (jb : jump_profile)
  (failed_log send_cmd : string) (d : device) (jump_connected : bool) (w : W)
  (c : call) (e : exn) (msg : string) :
  first_raised (trace (loop_body use_jumpbox jb failed_log send_cmd d jump_connected w))
    = Some (c, e) ->
  handled e = Some msg ->
  (appended (trace (loop_body use_jumpbox jb failed_log send_cmd d jump_connected w))
     = [(failed_log, connect_failed_line (hostname d) msg)] \/
   appended (trace (loop_body use_jumpbox jb failed_log send_cmd d jump_connected w))
     = [(failed_log, failure_on_line (hostname d) msg)])
  /\ (after_write c = false ->
      written_files (trace (loop_body use_jumpbox jb failed_log send_cmd d jump_connected w))
        = [])
  /\ (use_jumpbox = false \/
      (forall e', ~ In (Called Disconnect (Raised e'))
                       (trace (loop_body use_jumpbox jb failed_log send_cmd d
                                         jump_connected w))) ->
      exists jc',
        outcome_of (loop_body use_jumpbox jb failed_log send_cmd d jump_connected w)
          = inr jc' /\
        forall rest,
          trace (device_loop use_jumpbox jb failed_log send_cmd (d :: rest)
                             jump_connected w)
          = trace (loop_body use_jumpbox jb failed_log send_cmd d jump_connected w)
            ++ trace (device_loop use_jumpbox jb failed_log send_cmd rest jc'
                        (world (loop_body use_jumpbox jb failed_log send_cmd d
                                          jump_connected w)))).
Proof.
  intros Hfr Hh.
  assert (Hgo : forall jc',
    outcome_of (loop_body use_jumpbox jb failed_log send_cmd d jump_connected w) = inr jc' ->
    exists jc'',
      outcome_of (loop_body use_jumpbox jb failed_log send_cmd d jump_connected w)
        = inr jc'' /\
      forall rest,
        trace (device_loop use_jumpbox jb failed_log send_cmd (d :: rest) jump_connected w)
        = trace (loop_body use_jumpbox jb failed_log send_cmd d jump_connected w)
          ++ trace (device_loop use_jumpbox jb failed_log send_cmd rest jc''
                      (world (loop_body use_jumpbox jb failed_log send_cmd d
                                        jump_connected w)))).
  { intros jc' Ho. exists jc'. split; [exact Ho|].
    intros rest. now apply device_loop_cons. }
  revert Hfr Hgo.
  generalize (world (loop_body use_jumpbox jb failed_log send_cmd d jump_connected w)).
  intros wr.
  generalize (fun rest jc' =>
    trace (device_loop use_jumpbox jb failed_log send_cmd rest jc' wr)).
  generalize (fun rest =>
    trace (device_loop use_jumpbox jb failed_log send_cmd (d :: rest) jump_connected w)).
  intros whole tail. cbv beta.
  destruct use_jumpbox.
  - destruct (jump_routed d) eqn:Hr.
    + destruct (jump_body_shape jb failed_log send_cmd d jump_connected w Hr)
        as (tb & res & o & Hs & Hf).
      use_finish Hf. clear Hr. unfold tunnel_call in Hs.
      destruct (PyStr.contains "ssh" (PyStr.lower (protocol d))), jump_connected;
        open_shapes; try discriminate; open_finish;
        cbn; intros Hfr Hgo; try discriminate;
        inversion Hfr; subst; cbn in Hh; try discriminate; inversion Hh; subst;
        (split; [auto | split; [cbn; first [discriminate | reflexivity] |]]);
        (intros [Hd | Hn]; [discriminate | ]);
        first [ eapply Hgo; reflexivity
              | exfalso; eapply Hn; cbn; intuition eauto ].
    + rewrite (jump_body_skip jb failed_log send_cmd d jump_connected w Hr).
      cbn. discriminate.
  - destruct (direct_body_shape jb failed_log send_cmd d jump_connected w)
      as (tb & res & Hs & Hf).
    use_finish Hf.
    open_shapes; open_finish; cbn; intros Hfr Hgo; try discriminate;
      inversion Hfr; subst; cbn in Hh; try discriminate; inversion Hh; subst;
      (split; [auto | split; [cbn; first [discriminate | reflexivity] |]]);
      intros _; eapply Hgo; reflexivity.
Qed.

(** With the flag down, the iteration of a jump-routed device starts by
    connecting to the jump box. *)
Lemma flag_down_connects_first (jb : jump_profile) (failed_log send_cmd : string)
  (d : device) (w : W) :
  jump_routed d = true ->
  exists o rest,
    trace (loop_body true jb failed_log send_cmd d false w)
    = Called (ConnectSsh (jumpbox jb) (j_username jb) (j_password jb) [j_ending jb]) o
      :: rest.
Proof.
  intros Hr.
  destruct (jump_body_shape jb failed_log send_cmd d false w Hr)
    as (tb & res & o & Hs & Hf).
  use_finish Hf.
  inversion Hs; subst; clear Hs; [| destruct res]; open_finish; cbn; eauto.
Qed.

(** C3, as amended.  Jump path, the first failing call of the iteration raised a
    connect error or an interaction error: the trace is what the [try]
    block did, then the "Connect to ... failed" line appended to the
    failure log, then a full disconnect.  No full disconnect comes
    before the handler.  When that disconnect returns the session is
    closed (jump box included) and the iteration hands on a cleared
    flag; with the flag cleared, the next jump-routed device starts by
    connecting to the jump box again. *)
Theorem jump_failure_tears_down (jb : jump_profile) (failed_log send_cmd : string)
  (d : device) (jump_connected : bool) (w : W) (c : call) (e : exn) (msg : string) :
  first_raised (trace (loop_body true jb failed_log send_cmd d jump_connected w))
    = Some (c, e) ->
  handled e = Some msg ->
  (exists (tb : list event) (o : outcome),
     trace (loop_body true jb failed_log send_cmd d jump_connected w)
     = tb ++ [Appended failed_log (connect_failed_line (hostname d) msg);
              Called Disconnect o]
     /\ first_raised tb = Some (c, e)
     /\ disconnects tb = 0
     /\ match o with
        | Returned _ =>
            outcome_of (loop_body true jb failed_log send_cmd d jump_connected w)
              = inr false
            /\ forall open : bool,
                 session_open open
                   (trace (loop_body true jb failed_log send_cmd d jump_connected w))
                 = false
        | Raised e' =>
            outcome_of (loop_body true jb failed_log send_cmd d jump_connected w)
              = inl e'
        end)
  /\ forall (d' : device) (w' : W),
       jump_routed d' = true ->
       exists o' rest,
         trace (loop_body true jb failed_log send_cmd d' false w')
         = Called (ConnectSsh (jumpbox jb) (j_username jb) (j_password jb) [j_ending jb]) o'
           :: rest.
Proof.
  intros Hfr Hh. split.
  2: { intros d' w'. apply flag_down_connects_first. }
  revert Hfr.
  destruct (jump_routed d) eqn:Hr.
  - destruct (jump_body_shape jb failed_log send_cmd d jump_connected w Hr)
      as (tb & res & o & Hs & Hf).
    use_finish Hf. clear Hr. unfold tunnel_call in Hs.
    destruct (PyStr.contains "ssh" (PyStr.lower (protocol d))), jump_connected;
      open_shapes; try discriminate;
      match goal with
      | |- context [jump_finish _ _ _ (Some ?x) _] => destruct x
      end;
      cbn [jump_finish handled fst snd];
      intros Hfr; cbn in Hfr; try discriminate;
      inversion Hfr; subst; cbn in Hh; inversion Hh; subst;
      eexists _, o; (split; [reflexivity |]);
      (split; [reflexivity |]); (split; [reflexivity |]);
      (destruct o; [split; [reflexivity | intros []; reflexivity] | reflexivity]).
  - rewrite (jump_body_skip jb failed_log send_cmd d jump_connected w Hr).
    cbn. discriminate.
Qed.


Lemma appended_app (t1 t2 : list event) :
  appended (t1 ++ t2) = appended t1 ++ appended t2.
Proof. unfold appended. apply flat_map_app. Qed.

Lemma all_returned_app (t1 t2 : list event) :
  all_returned (t1 ++ t2) = all_returned t1 && all_returned t2.
Proof. unfold all_returned. apply forallb_app. Qed.

Lemma device_loop_step (use_jumpbox : bool) (jb : jump_profile)
  (failed_log send_cmd : string) (d : device) (rest : list device)
  (jump_connected : bool) (w : W) :
  device_loop use_jumpbox jb failed_log send_cmd (d :: rest) jump_connected w =
    match outcome_of (loop_body use_jumpbox jb failed_log send_cmd d jump_connected w) with
    | inl e =>
        Run (world (loop_body use_jumpbox jb failed_log send_cmd d jump_connected w))
            (trace (loop_body use_jumpbox jb failed_log send_cmd d jump_connected w))
            (inl e)
    | inr jc' =>
        Run (world (device_loop use_jumpbox jb failed_log send_cmd rest jc'
                      (world (loop_body use_jumpbox jb failed_log send_cmd d
                                        jump_connected w))))
            (trace (loop_body use_jumpbox jb failed_log send_cmd d jump_connected w)
             ++ trace (device_loop use_jumpbox jb failed_log send_cmd rest jc'
                         (world (loop_body use_jumpbox jb failed_log send_cmd d
                                           jump_connected w))))
            (outcome_of (device_loop use_jumpbox jb failed_log send_cmd rest jc'
                           (world (loop_body use_jumpbox jb failed_log send_cmd d
                                             jump_connected w))))
    end.
Proof. reflexivity. Qed.

(** One iteration of the jump path: the connects it makes are paid for
    by the flag it found down or by the line it logged; a run without a
    raise makes no full disconnect and leaves the flag up when the device
    is jump-routed; the flag it hands on says whether the session is
    open. *)
Lemma jump_body_account (jb : jump_profile) (failed_log send_cmd : string)
  (d : device) (jump_connected : bool) (w : W) :
  let r := loop_body true jb failed_log send_cmd d jump_connected w in
  jump_connects (trace r)
    + match outcome_of r with inr jc' => connects_due jc' | inl _ => 0 end
    <= connects_due jump_connected + length (appended (trace r))
  /\ (all_returned (trace r) = true ->
      jump_connects (trace r)
        = (if jump_connected then 0 else if jump_routed d then 1 else 0)
      /\ disconnects (trace r) = 0
      /\ outcome_of r = inr (jump_connected || jump_routed d))
  /\ (forall jc', outcome_of r = inr jc' ->
      session_open jump_connected (trace r) = jc')
  /\ (jump_connected = true -> jump_connects (trace r) = 0).
Proof.
  cbv zeta. destruct (jump_routed d) eqn:Hr.
  - destruct (jump_body_shape jb failed_log send_cmd d jump_connected w Hr)
      as (tb & res & o & Hs & Hf).
    use_finish Hf. clear Hr. unfold tunnel_call in Hs.
    destruct (PyStr.contains "ssh" (PyStr.lower (protocol d))), jump_connected;
      open_shapes; try discriminate; open_finish; cbn;
      (split; [lia |]);
      (split; [first [discriminate | intros _; repeat split] |]);
      (split; [intros jc' Hj; first [discriminate Hj | now inversion Hj] |]);
      first [reflexivity | discriminate].
  - rewrite (jump_body_skip jb failed_log send_cmd d jump_connected w Hr).
    destruct jump_connected; cbn; repeat split; try lia; try congruence;
      intros; congruence.
Qed.









Lemma attempted_hosts_app (t1 t2 : list event) :
  attempted_hosts (t1 ++ t2) = attempted_hosts t1 ++ attempted_hosts t2.
Proof. unfold attempted_hosts. apply flat_map_app. Qed.

(** An iteration tries to reach its own device and no other; the direct
    path always tries. *)
Lemma body_attempts_own_host (use_jumpbox : bool) (jb : jump_profile)
  (failed_log send_cmd : string) (d : device) (jump_connected : bool) (w : W) :
  (attempted_hosts (trace (loop_body use_jumpbox jb failed_log send_cmd d jump_connected w))
     = [] \/
   attempted_hosts (trace (loop_body use_jumpbox jb failed_log send_cmd d jump_connected w))
     = [hostname d])
  /\ (use_jumpbox = false ->
      attempted_hosts
        (trace (loop_body use_jumpbox jb failed_log send_cmd d jump_connected w))
      = [hostname d]).
Proof.
  destruct use_jumpbox.
  - split; [| discriminate].
    destruct (jump_routed d) eqn:Hr.
    + destruct (jump_body_shape jb failed_log send_cmd d jump_connected w Hr)
        as (tb & res & o & Hs & Hf).
      use_finish Hf. clear Hr. unfold tunnel_call in Hs.
      destruct (PyStr.contains "ssh" (PyStr.lower (protocol d))), jump_connected;
        open_shapes; try discriminate; open_finish; cbn; auto.
    + rewrite (jump_body_skip jb failed_log send_cmd d jump_connected w Hr). now left.
  - destruct (direct_body_shape jb failed_log send_cmd d jump_connected w)
      as (tb & res & Hs & Hf).
    use_finish Hf.
    open_shapes; open_finish; cbn; auto.
Qed.

(** C8.  The trace of the loop is the concatenation, in list order, of
    one segment per device visited; each segment is the trace of one
    execution of the loop body for that device and reaches out to that
    device's host only, so everything done for one device comes before
    anything done for the next.  Devices are visited from the head of
    the list without gaps; all of them when the loop ends normally.  In
    the direct path the hosts connected to are exactly the host names of
    the devices visited, in list order. *)
Theorem devices_processed_in_list_order (use_jumpbox : bool) (jb : jump_profile)
  (failed_log send_cmd : string) (device_list : list device) :
  forall (jump_connected : bool) (w : W),
  exists segs : list (list event),
    trace (device_loop use_jumpbox jb failed_log send_cmd device_list jump_connected w)
      = concat segs
    /\ length segs <= length device_list
    /\ Forall2
         (fun d seg =>
            iteration_of (W:=W) use_jumpbox jb failed_log send_cmd d seg
            /\ (attempted_hosts seg = [] \/ attempted_hosts seg = [hostname d]))
         (firstn (length segs) device_list) segs
    /\ (forall jc',
          outcome_of (device_loop use_jumpbox jb failed_log send_cmd device_list
                                  jump_connected w) = inr jc' ->
          length segs = length device_list)
    /\ (use_jumpbox = false ->
        attempted_hosts
          (trace (device_loop use_jumpbox jb failed_log send_cmd device_list
                              jump_connected w))
        = map hostname (firstn (length segs) device_list)).
Proof.
  induction device_list as [| d rest IH]; intros jump_connected w.
  - exists []. cbn. repeat split; auto.
  - rewrite device_loop_step.
    destruct (body_attempts_own_host use_jumpbox jb failed_log send_cmd d jump_connected w)
      as (Hown & Hdir).
    assert (Hit : iteration_of (W:=W) use_jumpbox jb failed_log send_cmd d
                    (trace (loop_body use_jumpbox jb failed_log send_cmd d
                                      jump_connected w)))
      by (exists jump_connected, w; reflexivity).
    destruct (outcome_of (loop_body use_jumpbox jb failed_log send_cmd d jump_connected w))
      as [e | jc1]; cbn [world trace outcome_of].
    + exists [trace (loop_body use_jumpbox jb failed_log send_cmd d jump_connected w)].
      cbn [concat length firstn map]. rewrite app_nil_r.
      repeat split; auto.
      * lia.
      * discriminate.
    + destruct (IH jc1 (world (loop_body use_jumpbox jb failed_log send_cmd d
                                         jump_connected w)))
        as (segs & Hc & Hl & Hf & Hn & Hd).
      exists (trace (loop_body use_jumpbox jb failed_log send_cmd d jump_connected w)
              :: segs).
      cbn [concat length firstn map]. rewrite Hc in Hd |- *.
      repeat split; auto.
      * lia.
      * intros jc' Hj. now rewrite (Hn jc' Hj).
      * intros Hu. now rewrite attempted_hosts_app, (Hdir Hu), (Hd Hu).
Qed.

(** *** What a computation can emit *)

Lemma emits_ret {A} (P : event -> bool) (a : A) : emits (W:=W) P (ret a).
Proof. intros w. reflexivity. Qed.

Lemma emits_raise {A} (P : event -> bool) (e : exn) : emits (W:=W) (A:=A) P (raise e).
Proof. intros w. reflexivity. Qed.

Lemma emits_append (P : event -> bool) (path text : string) :
  P (Appended path text) = true -> emits (W:=W) P (append_file path text).
Proof. intros HP w. cbn. now rewrite HP. Qed.

Lemma emits_invoke (P : event -> bool) (c : call) :
  (forall o, P (Called c o) = true) -> emits (W:=W) P (invoke c).
Proof.
  intros HP w.
  destruct (invoke_cases c w) as [(w1 & e & ->) | (w1 & a & ->)]; cbn; now rewrite HP.
Qed.

Lemma emits_bind {A B} (P : event -> bool) (m : M W A) (k : A -> M W B) :
  emits P m -> (forall a, emits P (k a)) -> emits P (bind m k).
Proof.
  intros Hm Hk w. unfold bind. specialize (Hm w).
  destruct (outcome_of (m w)) as [e | a]; cbn [trace].
  - exact Hm.
  - rewrite forallb_app, Hm. apply Hk.
Qed.

Lemma emits_try_except {A} (P : event -> bool) (m : M W A) (h : exn -> option (M W A)) :
  emits P m -> (forall e k, h e = Some k -> emits P k) -> emits P (try_except m h).
Proof.
  intros Hm Hh w. rewrite try_except_run. specialize (Hm w).
  destruct (outcome_of (m w)) as [e | a]; [| exact Hm].
  destruct (h e) as [k |] eqn:Hk; [| exact Hm].
  cbn [trace]. rewrite forallb_app, Hm. now apply (Hh e k).
Qed.

End Properties.

(** Discharge an [emits] goal by following the structure of the
    computation; [known] is tried first at every step. *)
Ltac emit_using known :=
  repeat first
    [ known
    | apply emits_ret
    | apply emits_raise
    | apply emits_append; reflexivity
    | match goal with
      | |- emits ?P (invoke ?c) => refine (emits_invoke P c _); intros ?; reflexivity
      end
    | apply emits_bind; [| intros ?]
    | match goal with
      | |- emits _ (if ?b then _ else _) => destruct b
      | |- emits _ (match ?l with [] => _ | _ :: _ => _ end) => destruct l
      end ].

Ltac emit := emit_using fail.

Section Frame.
Context {W : Type} `{Collaborators W}.

Lemma per_device_work_frame (enable_pass send_cmd : string) :
  emits (W:=W) update_in_frame (per_device_work enable_pass send_cmd).
Proof. unfold per_device_work. emit. Qed.

Lemma loop_body_frame (use_jumpbox : bool) (jb : jump_profile)
  (failed_log send_cmd : string) (d : device) (jump_connected : bool) :
  emits (W:=W) update_in_frame
    (loop_body use_jumpbox jb failed_log send_cmd d jump_connected).
Proof.
  unfold loop_body.
  destruct use_jumpbox;
    [ destruct (PyStr.contains "ssh" (PyStr.lower (protocol d)));
      [| destruct (String.eqb (PyStr.lower (protocol d)) "telnet") ] |];
    try apply emits_ret;
    apply emits_try_except;
    try (intros [m | m | m | m] k Hk; cbn in Hk; inversion Hk; subst; emit);
    unfold jump_try; emit; apply per_device_work_frame.
Qed.

Lemma device_loop_frame (use_jumpbox : bool) (jb : jump_profile)
  (failed_log send_cmd : string) (device_list : list device) :
  forall jump_connected,
    emits (W:=W) update_in_frame
      (device_loop use_jumpbox jb failed_log send_cmd device_list jump_connected).
Proof.
  induction device_list as [| d rest IH]; intros jump_connected; cbn [device_loop].
  - apply emits_ret.
  - apply emits_bind; [apply loop_body_frame | intros jc; apply IH].
Qed.

Lemma jumpbox_section_frame : emits (W:=W) update_in_frame jumpbox_section.
Proof. unfold jumpbox_section. emit. Qed.

Lemma script_main_frame (script_name : string) :
  emits (W:=W) update_in_frame (script_main script_name).
Proof.
  unfold script_main, connect_loop_section.
  emit_using ltac:(first [apply jumpbox_section_frame | apply device_loop_frame]).
Qed.

End Frame.

Section DialogueSteps.
Context {W : Type} `{Collaborators W}.

(** Following a dialogue is stable under a common prefix, and a run that
    was cut by a raise ignores what the dialogue goes on with. *)
Lemma follows_cons_ctx (x : event) (full tr : list event) (res : option exn) :
  follows_until_raise full tr res -> follows_until_raise (x :: full) (x :: tr) res.
Proof.
  destruct res as [e |]; cbn.
  - intros (n & c & v & Hn & ->). exists (S n), c, v. split; [exact Hn | reflexivity].
  - now intros ->.
Qed.

Lemma follows_app_ctx (pre full tr : list event) (res : option exn) :
  follows_until_raise full tr res -> follows_until_raise (pre ++ full) (pre ++ tr) res.
Proof.
  intros Hf. induction pre as [| x pre IH]; [exact Hf |].
  cbn [app]. now apply follows_cons_ctx.
Qed.

Lemma follows_cut (full rest tr : list event) (e : exn) :
  follows_until_raise full tr (Some e) ->
  follows_until_raise (full ++ rest) tr (Some e).
Proof.
  cbn. intros (n & c & v & Hn & ->). exists n, c, v.
  assert (Hlt : n < length full) by (apply nth_error_Some; congruence).
  split.
  - rewrite nth_error_app1 by exact Hlt. exact Hn.
  - rewrite firstn_app. replace (n - length full) with 0 by lia.
    cbn [firstn]. now rewrite app_nil_r.
Qed.

(** One call follows the one-call dialogue. *)
Lemma invoke_follows (c : call) (dflt : resp c) (w : W) :
  exists a : resp c,
    follows_until_raise [Called c (Returned (to_value c a))]
      (trace (invoke c w)) (raised (invoke c w))
    /\ forall x, outcome_of (invoke c w) = inr x -> x = a.
Proof.
  destruct (invoke_cases c w) as [(w1 & e & ->) | (w1 & a & ->)].
  - exists dflt. split; [| discriminate].
    exists 0, c, (to_value c dflt). split; reflexivity.
  - exists a. split; [reflexivity |]. intros x Hx. now injection Hx.
Qed.

(** One "if not stored: ask and write back" block (lines 72-74, 76-78
    and 82-84) follows its piece of the dialogue and yields the stored
    value or the answer. *)
Lemma ask_block_follows (option_name message : string) (v : option string) (w : W) :
  exists a,
    follows_until_raise (ask_and_store option_name message v a)
      (trace
        ((if missing v then
            a <- invoke (PromptWindow message None) ;;
            invoke (SettingsUpdate "Global" option_name a) ;;
            ret a
          else ret (match v with Some s => s | None => "" end)) w))
      (raised
        ((if missing v then
            a <- invoke (PromptWindow message None) ;;
            invoke (SettingsUpdate "Global" option_name a) ;;
            ret a
          else ret (match v with Some s => s | None => "" end)) w))
    /\ forall x,
         outcome_of
           ((if missing v then
               a <- invoke (PromptWindow message None) ;;
               invoke (SettingsUpdate "Global" option_name a) ;;
               ret a
             else ret (match v with Some s => s | None => "" end)) w) = inr x ->
         x = stored_or v a.
Proof.
  unfold ask_and_store, stored_or.
  destruct (missing v).
  - destruct (invoke_cases (PromptWindow message None) w)
      as [(w1 & e & E) | (w1 & a & E)].
    + erewrite bind_raises by exact E. exists EmptyString. split; [| discriminate].
      exists 0, (PromptWindow message None), (VStr ""). split; reflexivity.
    + erewrite bind_returns by exact E. cbn [world trace outcome_of].
      destruct (invoke_cases (SettingsUpdate "Global" option_name a) w1)
        as [(w2 & e & E2) | (w2 & u & E2)].
      * erewrite bind_raises by exact E2. exists a. split; [| discriminate].
        exists 1, (SettingsUpdate "Global" option_name a), VNone. split; reflexivity.
      * erewrite bind_returns by exact E2. exists a. split; [reflexivity |].
        intros x Hx. now injection Hx.
  - exists EmptyString. split; [reflexivity |]. intros x Hx. now injection Hx.
Qed.


Lemma raised_run {A} (w : W) (t : list event) (o : result A) :
  raised (Run w t o) = match o with inl e => Some e | inr _ => None end.
Proof. reflexivity. Qed.

End DialogueSteps.

(** Place the stage that raised inside the whole dialogue. *)
Ltac in_dialogue F :=
  unfold jumpbox_dialogue; cbn [app];
  repeat first [apply follows_cons_ctx | apply follows_app_ctx];
  first [exact F | apply follows_cut; exact F | apply (follows_cut [_]); exact F].

(** Run one stage of the section: either it raised and the section ends
    there, or its piece of the trace and its value are known. *)
Ltac stage F X R wn tn xn :=
  match type of F with
  | follows_until_raise _ (trace ?r) _ =>
      destruct r as [wn tn [?e | xn]] eqn:R;
      cbn [world trace outcome_of] in F, X; rewrite raised_run in F;
      [ erewrite bind_raises by exact R; rewrite raised_run; cbn [trace outcome_of]
      | erewrite bind_returns by exact R; cbn [world trace outcome_of];
        cbn in F; subst tn; specialize (X xn eq_refl); subst xn ]
  end.

Section Dialogue.
Context {W : Type} `{Collaborators W}.

(** Every run of the jump-box section follows the dialogue, stage by
    stage. *)
Lemma jumpbox_section_follows_dialogue (w : W) :
  exists (v1 v2 v3 : option string) (a1 a2 pw a3 : string),
    follows_until_raise (jumpbox_dialogue v1 v2 v3 a1 a2 pw a3)
      (trace (jumpbox_section w)) (raised (jumpbox_section w))
    /\ forall p, outcome_of (jumpbox_section w) = inr p ->
         p = JumpProfile (stored_or v1 a1) (stored_or v2 a2) pw (stored_or v3 a3).
Proof.
  unfold jumpbox_section.
  destruct (invoke_follows (SettingsGet "Global" "jumpbox_host") None w)
    as (v1 & F1 & X1).
  stage F1 X1 R1 w1 t1 x1.
  { exists v1, None, None, EmptyString, EmptyString, EmptyString, EmptyString.
    split; [in_dialogue F1 | discriminate]. }
  destruct (invoke_follows (SettingsGet "Global" "jumpbox_user") None w1)
    as (v2 & F2 & X2).
  stage F2 X2 R2 w2 t2 x2.
  { exists v1, v2, None, EmptyString, EmptyString, EmptyString, EmptyString.
    split; [in_dialogue F2 | discriminate]. }
  destruct (invoke_follows (SettingsGet "Global" "jumpbox_prompt_end") None w2)
    as (v3 & F3 & X3).
  stage F3 X3 R3 w3 t3 x3.
  { exists v1, v2, v3, EmptyString, EmptyString, EmptyString, EmptyString.
    split; [in_dialogue F3 | discriminate]. }
  destruct (ask_block_follows "jumpbox_host" "Enter the HOSTNAME or IP for the jumpbox"
              v1 w3) as (a1 & F4 & X4).
  stage F4 X4 R4 w4 t4 x4.
  { exists v1, v2, v3, a1, EmptyString, EmptyString, EmptyString.
    split; [in_dialogue F4 | discriminate]. }
  destruct (ask_block_follows "jumpbox_user"
              ("JUMPBOX: Enter the USERNAME for " ++ stored_or v1 a1)%string v2 w4)
    as (a2 & F5 & X5).
  stage F5 X5 R5 w5 t5 x5.
  { exists v1, v2, v3, a1, a2, EmptyString, EmptyString.
    split; [in_dialogue F5 | discriminate]. }
  destruct (invoke_follows
              (PromptWindow ("JUMPBOX: Enter the PASSWORD for " ++ stored_or v2 a2)%string
                            (Some true)) EmptyString w5)
    as (pw & F6 & X6).
  stage F6 X6 R6 w6 t6 x6.
  { exists v1, v2, v3, a1, a2, pw, EmptyString.
    split; [in_dialogue F6 | discriminate]. }
  destruct (ask_block_follows "jumpbox_prompt_end"
              "Enter the last character of the jumpbox CLI prompt" v3 w6)
    as (a3 & F7 & X7).
  stage F7 X7 R7 w7 t7 x7.
  { exists v1, v2, v3, a1, a2, pw, a3.
    split; [in_dialogue F7 | discriminate]. }
  exists v1, v2, v3, a1, a2, pw, a3. split.
  - cbn. unfold jumpbox_dialogue. now rewrite app_nil_r.
  - intros p Hp. now injection Hp.
Qed.

(** C7.  When the jump box is in use, every run of the jump-box section
    follows the dialogue of the design up to the first call that raises:
    the three settings are read, each one is asked for and written back
    exactly when its stored value is missing, and the password is asked
    for with hidden input whatever is stored; it is handed on in the
    profile only, no [settings.update] carries it.  In every run of
    [script_main], whatever raises, each [settings.update] writes one of
    the three jump-box settings of section "Global": no other setting is
    modified. *)
Theorem jumpbox_settings_asked_when_missing (script_name : string) (w : W) :
  (exists (v1 v2 v3 : option string) (a1 a2 pw a3 : string),
     follows_until_raise (jumpbox_dialogue v1 v2 v3 a1 a2 pw a3)
       (trace (jumpbox_section w)) (raised (jumpbox_section w))
     /\ forall p : jump_profile,
          outcome_of (jumpbox_section w) = inr p ->
          p = JumpProfile (stored_or v1 a1) (stored_or v2 a2) pw (stored_or v3 a3))
  /\ updates_within_jumpbox_settings (trace (script_main script_name w)) = true.
Proof.
  split.
  - apply jumpbox_section_follows_dialogue.
  - apply script_main_frame.
Qed.

End Dialogue.

(** ** The properties at work on the scripted collaborators *)

(** C6 on a tab that is connected. *)
Lemma connected_tab_aborts_witness :
  script_main "m_save_output.py" Sim.connected_world
  = Run Sim.connected_world
        [Called GetMainSession (Returned VNone);
         Called IsConnected (Returned (VBool true))]
        (inl (ScriptError "This script must be launched in a not-connected tab.")).
Proof.
  apply (connected_tab_aborts "m_save_output.py" Sim.connected_world
           Sim.connected_world Sim.connected_world tt); reflexivity.
Defined.

(** C5 on an empty device list, and on an operator who enters no
    command. *)
Lemma empty_input_returns_early_witness :
  script_main "m_save_output.py" (Sim.direct_world [] Sim.no_fault)
  = Run (Sim.direct_world [] Sim.no_fault)
        [Called GetMainSession (Returned VNone);
         Called IsConnected (Returned (VBool false));
         Called ImportDeviceList (Returned (VDevices []))]
        (inr tt)
  /\ script_main "m_save_output.py" (Sim.silent_world [Sim.r1; Sim.r2])
     = Run (Sim.silent_world [Sim.r1; Sim.r2])
           [Called GetMainSession (Returned VNone);
            Called IsConnected (Returned (VBool false));
            Called ImportDeviceList (Returned (VDevices [Sim.r1; Sim.r2]));
            Called (PromptWindow "Enter the command to capture on each device." None)
                   (Returned (VStr ""))]
           (inr tt).
Proof.
  split.
  - destruct (empty_input_returns_early "m_save_output.py"
                (Sim.direct_world [] Sim.no_fault)
                (Sim.direct_world [] Sim.no_fault)
                (Sim.direct_world [] Sim.no_fault)
                (Sim.direct_world [] Sim.no_fault) tt []) as (T & _);
      [reflexivity | reflexivity | reflexivity |].
    apply T. reflexivity.
  - destruct (empty_input_returns_early "m_save_output.py"
                (Sim.silent_world [Sim.r1; Sim.r2])
                (Sim.silent_world [Sim.r1; Sim.r2])
                (Sim.silent_world [Sim.r1; Sim.r2])
                (Sim.silent_world [Sim.r1; Sim.r2]) tt [Sim.r1; Sim.r2])
      as (_ & T & _);
      [reflexivity | reflexivity | reflexivity |].
    apply T; [discriminate | reflexivity].
Defined.

(** C9 on a device reached over a serial line. *)
Lemma jump_mode_skips_other_protocols_witness :
  loop_body true Sim.jb0 "LOG" "show version" Sim.r3 true
            (Sim.jump_world [Sim.r3] Sim.no_fault)
  = Run (Sim.jump_world [Sim.r3] Sim.no_fault) [] (inr true).
Proof.
  apply (jump_mode_skips_other_protocols Sim.jb0 "LOG" "show version" Sim.r3 true).
  - reflexivity.
  - vm_compute. discriminate.
Defined.

(** C10 on a device whose vendor session cannot be started. *)
Lemma direct_interaction_error_leaves_session_open_witness :
  trace (loop_body false Sim.jb0 "LOG" "show version" Sim.r1 false
                   (Sim.direct_world [Sim.r1] Sim.start_fails))
  = [Called (Connect "r1" "admin" "pw1" "SSH2") (Returned VNone);
     Called (StartCiscoSession "en1") (Raised (InteractionError " no prompt "));
     Appended "LOG" (failure_on_line "r1" " no prompt ")]
  /\ disconnects
       (trace (loop_body false Sim.jb0 "LOG" "show version" Sim.r1 false
                         (Sim.direct_world [Sim.r1] Sim.start_fails))) = 0
  /\ session_open false
       (trace (loop_body false Sim.jb0 "LOG" "show version" Sim.r1 false
                         (Sim.direct_world [Sim.r1] Sim.start_fails))) = true.
Proof.
  destruct (direct_interaction_error_leaves_session_open Sim.jb0 "LOG" "show version"
              Sim.r1 false (Sim.direct_world [Sim.r1] Sim.start_fails)
              (Sim.direct_world [Sim.r1] Sim.start_fails) " no prompt ")
    as (Ht & Hd & Hs); [reflexivity | reflexivity |].
  split; [| split].
  - rewrite Ht. reflexivity.
  - exact Hd.
  - apply Hs.
Defined.

(** C1 (amended) on a device that connects and answers. *)
Lemma connected_and_worked_writes_one_file_witness :
  connection_succeeded
    (trace (loop_body false Sim.jb0 "LOG" "show version" Sim.r1 false
                      (Sim.direct_world [Sim.r1] Sim.no_fault))) = true
  /\ work_raised
       (trace (loop_body false Sim.jb0 "LOG" "show version" Sim.r1 false
                         (Sim.direct_world [Sim.r1] Sim.no_fault))) = false
  /\ exists (before after : list event) (full_file_name : string),
       trace (loop_body false Sim.jb0 "LOG" "show version" Sim.r1 false
                        (Sim.direct_world [Sim.r1] Sim.no_fault))
       = before
         ++ [Called (StartCiscoSession "en1") (Returned VNone);
             Called (CreateOutputFilename "show version" None)
                    (Returned (VStr full_file_name));
             Called (WriteOutputToFile "show version" full_file_name) (Returned VNone);
             Called EndCiscoSession (Returned VNone)]
         ++ after
       /\ written_files
            (trace (loop_body false Sim.jb0 "LOG" "show version" Sim.r1 false
                              (Sim.direct_world [Sim.r1] Sim.no_fault)))
          = [full_file_name].
Proof.
  split; [reflexivity | split; [reflexivity |]].
  apply (connected_and_worked_writes_one_file false Sim.jb0 "LOG" "show version"
           Sim.r1 false (Sim.direct_world [Sim.r1] Sim.no_fault)); reflexivity.
Defined.

(** C1 as stated fails: the connect to r1 returns, the vendor session
    cannot be started, and no output file is written. *)
Lemma connected_device_without_output_file :
  ~ (connection_succeeded
       (trace (loop_body false Sim.jb0 "LOG" "show version" Sim.r1 false
                         (Sim.direct_world [Sim.r1] Sim.start_fails))) = true ->
     length (written_files
               (trace (loop_body false Sim.jb0 "LOG" "show version" Sim.r1 false
                                 (Sim.direct_world [Sim.r1] Sim.start_fails)))) = 1).
Proof.
  intros Claim. specialize (Claim eq_refl). vm_compute in Claim. discriminate Claim.
Qed.

(** C2 (amended) on a device whose direct connect is refused. *)
Lemma handled_failure_is_logged_once_witness :
  first_raised
    (trace (loop_body false Sim.jb0 "LOG" "show version" Sim.r2 false
                      (Sim.direct_world [Sim.r1; Sim.r2] Sim.connect_r2_fails)))
    = Some (Connect "r2" "admin" "pw2" "Telnet", ConnectError " timed out")
  /\ handled (ConnectError " timed out") = Some " timed out"
  /\ appended
       (trace (loop_body false Sim.jb0 "LOG" "show version" Sim.r2 false
                         (Sim.direct_world [Sim.r1; Sim.r2] Sim.connect_r2_fails)))
     = [("LOG", connect_failed_line "r2" " timed out")]
  /\ written_files
       (trace (loop_body false Sim.jb0 "LOG" "show version" Sim.r2 false
                         (Sim.direct_world [Sim.r1; Sim.r2] Sim.connect_r2_fails)))
     = []
  /\ exists jc',
       outcome_of (loop_body false Sim.jb0 "LOG" "show version" Sim.r2 false
                             (Sim.direct_world [Sim.r1; Sim.r2] Sim.connect_r2_fails))
       = inr jc'.
Proof.
  destruct (handled_failure_is_logged_once false Sim.jb0 "LOG" "show version" Sim.r2 false
              (Sim.direct_world [Sim.r1; Sim.r2] Sim.connect_r2_fails)
              (Connect "r2" "admin" "pw2" "Telnet") (ConnectError " timed out")
              " timed out") as (Hline & Hfile & Hnext);
    [reflexivity | reflexivity |].
  split; [reflexivity | split; [reflexivity | split; [reflexivity | split]]].
  - apply Hfile. reflexivity.
  - destruct (Hnext (or_introl eq_refl)) as (jc' & Hj & _). exists jc'. exact Hj.
Defined.

(** C2 as stated fails: ending the vendor session on r1 raises an
    interaction error after the output was written; a line is logged
    and the output file exists. *)
Lemma failure_after_write_leaves_output_file :
  ~ (first_raised
       (trace (loop_body false Sim.jb0 "LOG" "show version" Sim.r1 false
                         (Sim.direct_world [Sim.r1] Sim.end_fails)))
       = Some (EndCiscoSession, InteractionError "stuck") ->
     length (appended
               (trace (loop_body false Sim.jb0 "LOG" "show version" Sim.r1 false
                                 (Sim.direct_world [Sim.r1] Sim.end_fails)))) = 1
     /\ written_files
          (trace (loop_body false Sim.jb0 "LOG" "show version" Sim.r1 false
                            (Sim.direct_world [Sim.r1] Sim.end_fails))) = []
     /\ outcome_of (loop_body false Sim.jb0 "LOG" "show version" Sim.r1 false
                              (Sim.direct_world [Sim.r1] Sim.end_fails)) = inr false).
Proof.
  intros Claim. destruct (Claim eq_refl) as (_ & Hfile & _).
  vm_compute in Hfile. discriminate Hfile.
Qed.

(** C3 on a tunnel that cannot be opened. *)
Lemma jump_failure_tears_down_witness :
  first_raised
    (trace (loop_body true Sim.jb0 "LOG" "show version" Sim.r1 false
                      (Sim.jump_world [Sim.r1; Sim.r2] Sim.tunnel_r1_fails)))
    = Some (SshViaJump "r1" "admin" "pw1", ConnectError "refused ")
  /\ handled (ConnectError "refused ") = Some "refused "
  /\ exists (tb : list event) (o : outcome),
       trace (loop_body true Sim.jb0 "LOG" "show version" Sim.r1 false
                        (Sim.jump_world [Sim.r1; Sim.r2] Sim.tunnel_r1_fails))
       = tb ++ [Appended "LOG" (connect_failed_line "r1" "refused ");
                Called Disconnect o]
       /\ first_raised tb
          = Some (SshViaJump "r1" "admin" "pw1", ConnectError "refused ")
       /\ disconnects tb = 0.
Proof.
  split; [reflexivity | split; [reflexivity |]].
  destruct (jump_failure_tears_down Sim.jb0 "LOG" "show version" Sim.r1 false
              (Sim.jump_world [Sim.r1; Sim.r2] Sim.tunnel_r1_fails)
              (SshViaJump "r1" "admin" "pw1") (ConnectError "refused ") "refused ")
    as ((tb & o & Ht & Hf & Hd & _) & _); [reflexivity | reflexivity |].
  exists tb, o. split; [exact Ht | split; [exact Hf | exact Hd]].
Defined.

(** C3 as stated fails: the tunnel to r1 is refused and the disconnect
    of the handler raises in its turn; the line is logged, but the
    session the jump-box connect opened is still open, the exception of
    the disconnect leaves the iteration, and no flag is handed on to a
    next device. *)
Lemma failed_handler_disconnect_leaves_session_open :
  ~ (first_raised
       (trace (loop_body true Sim.jb0 "LOG" "show version" Sim.r1 false
                         (Sim.jump_world [Sim.r1; Sim.r2] Sim.handler_disconnect_fails)))
       = Some (SshViaJump "r1" "admin" "pw1", ConnectError "refused ") ->
     session_open false
       (trace (loop_body true Sim.jb0 "LOG" "show version" Sim.r1 false
                         (Sim.jump_world [Sim.r1; Sim.r2] Sim.handler_disconnect_fails)))
     = false
     /\ outcome_of (loop_body true Sim.jb0 "LOG" "show version" Sim.r1 false
                              (Sim.jump_world [Sim.r1; Sim.r2]
                                              Sim.handler_disconnect_fails))
        = inr false).
Proof.
  intros Claim. destruct (Claim eq_refl) as (Hclosed & _).
  vm_compute in Hclosed. discriminate Hclosed.
Qed.


(** C7 on a settings store that holds the jump-box host only. *)
Lemma jumpbox_settings_asked_when_missing_witness :
  outcome_of (jumpbox_section (Sim.jump_world [Sim.r1] Sim.no_fault))
    = inr (JumpProfile "jump" "asked" "secret" "asked")
  /\ trace (jumpbox_section (Sim.jump_world [Sim.r1] Sim.no_fault))
     = jumpbox_dialogue (Some "jump") None None "" "asked" "secret" "asked"
  /\ updates_within_jumpbox_settings
       (trace (script_main "m_save_output.py" (Sim.jump_world [Sim.r1] Sim.no_fault)))
     = true.
Proof.
  destruct (jumpbox_settings_asked_when_missing "m_save_output.py"
              (Sim.jump_world [Sim.r1] Sim.no_fault)) as (_ & Hframe).
  split; [reflexivity | split; [reflexivity | exact Hframe]].
Defined.

(** C8 on two devices reached directly, the second of which refuses the
    connection. *)
Lemma devices_processed_in_list_order_witness :
  attempted_hosts
    (trace (device_loop false Sim.jb0 "LOG" "show version" [Sim.r1; Sim.r2] false
                        (Sim.direct_world [Sim.r1; Sim.r2] Sim.connect_r2_fails)))
  = ["r1"; "r2"].
Proof.
  destruct (devices_processed_in_list_order false Sim.jb0 "LOG" "show version"
              [Sim.r1; Sim.r2] false
              (Sim.direct_world [Sim.r1; Sim.r2] Sim.connect_r2_fails))
    as (segs & _ & _ & _ & Hall & Hdirect).
  rewrite (Hdirect eq_refl), (Hall false eq_refl). reflexivity.
Defined.

(** ** Further properties of the loop and of whole runs *)

(** One goal per shape the iteration can take, with the trace and the
    outcome spelled out. *)
Ltac body_leaves uj jb flog cmd d jc w :=
  destruct uj;
  [ let Hr := fresh "Hr" in
    destruct (jump_routed d) eqn:Hr;
    [ let tb := fresh "tb" in
      let res := fresh "res" in
      let o := fresh "o" in
      let Hs := fresh "Hs" in
      let Hf := fresh "Hf" in
      destruct (jump_body_shape jb flog cmd d jc w Hr) as (tb & res & o & Hs & Hf);
      use_finish Hf; clear Hr; unfold tunnel_call in Hs;
      destruct (PyStr.contains "ssh" (PyStr.lower (protocol d)));
      destruct jc; open_shapes; try discriminate; open_finish
    | rewrite (jump_body_skip jb flog cmd d jc w Hr) ]
  | let tb := fresh "tb" in
    let res := fresh "res" in
    let Hs := fresh "Hs" in
    let Hf := fresh "Hf" in
    destruct (direct_body_shape jb flog cmd d jc w) as (tb & res & Hs & Hf);
    use_finish Hf; open_shapes; open_finish ].

Section Iteration.
Context {W : Type} `{Collaborators W}.


(** An iteration in which nothing raises logs nothing, ends normally,
    and connects and writes once exactly when the loop serves the
    device. *)
Lemma body_clean (use_jumpbox : bool) (jb : jump_profile)
  (failed_log send_cmd : string) (d : device) (jump_connected : bool) (w : W) :
  all_returned
    (trace (loop_body use_jumpbox jb failed_log send_cmd d jump_connected w)) = true ->
  appended (trace (loop_body use_jumpbox jb failed_log send_cmd d jump_connected w)) = []
  /\ length (written_files
               (trace (loop_body use_jumpbox jb failed_log send_cmd d jump_connected w)))
     = (if served use_jumpbox d then 1 else 0)
  /\ attempted_hosts
       (trace (loop_body use_jumpbox jb failed_log send_cmd d jump_connected w))
     = (if served use_jumpbox d then [hostname d] else [])
  /\ exists jc',
       outcome_of (loop_body use_jumpbox jb failed_log send_cmd d jump_connected w)
       = inr jc'.
Proof.
  unfold served.
  destruct use_jumpbox;
    [ destruct (jump_routed d) eqn:Hr;
      [ destruct (jump_body_shape jb failed_log send_cmd d jump_connected w Hr)
          as (tb & res & o & Hs & Hf);
        use_finish Hf; clear Hr; unfold tunnel_call in Hs;
        destruct (PyStr.contains "ssh" (PyStr.lower (protocol d)));
        destruct jump_connected; open_shapes; try discriminate; open_finish
      | rewrite (jump_body_skip jb failed_log send_cmd d jump_connected w Hr) ]
    | destruct (direct_body_shape jb failed_log send_cmd d jump_connected w)
        as (tb & res & Hs & Hf);
      use_finish Hf; open_shapes; open_finish ];
    cbn; try discriminate; intros _; repeat split; eauto.
Qed.

(** Every line an iteration appends goes to the failure log and names
    the host of its device; the "Failure on" wording is the direct
    path's. *)
Lemma body_lines (use_jumpbox : bool) (jb : jump_profile)
  (failed_log send_cmd : string) (d : device) (jump_connected : bool) (w : W)
  (path text : string) :
  In (path, text)
     (appended (trace (loop_body use_jumpbox jb failed_log send_cmd d jump_connected w))) ->
  path = failed_log
  /\ exists msg,
       text = connect_failed_line (hostname d) msg
       \/ (use_jumpbox = false /\ text = failure_on_line (hostname d) msg).
Proof.
  body_leaves use_jumpbox jb failed_log send_cmd d jump_connected w; cbn;
    intros Hin; repeat (destruct Hin as [Hin | Hin]; [| try contradiction]);
    try contradiction; injection Hin as <- <-; split; eauto.
Qed.

(** An exception no handler names ends the iteration at the call that
    raised it, with nothing logged. *)
Lemma body_unhandled (use_jumpbox : bool) (jb : jump_profile)
  (failed_log send_cmd : string) (d : device) (jump_connected : bool) (w : W)
  (c : call) (e : exn) :
  first_raised
    (trace (loop_body use_jumpbox jb failed_log send_cmd d jump_connected w))
    = Some (c, e) ->
  handled e = None ->
  outcome_of (loop_body use_jumpbox jb failed_log send_cmd d jump_connected w) = inl e
  /\ appended (trace (loop_body use_jumpbox jb failed_log send_cmd d jump_connected w))
     = []
  /\ exists t,
       trace (loop_body use_jumpbox jb failed_log send_cmd d jump_connected w)
       = t ++ [Called c (Raised e)].
Proof.
  intros Hfr Hh. revert Hfr.
  body_leaves use_jumpbox jb failed_log send_cmd d jump_connected w; cbn;
    intros Hfr; try discriminate; injection Hfr as <- <-; try discriminate Hh;
    (split; [reflexivity | split; [reflexivity |]]);
    match goal with
    | |- exists t, ?L = t ++ _ => exists (removelast L); reflexivity
    end.
Qed.

(** An exception that leaves an iteration was raised by its last call;
    a connect or interaction error leaves only from the disconnect of
    the jump path's handler. *)
Lemma body_escape (use_jumpbox : bool) (jb : jump_profile)
  (failed_log send_cmd : string) (d : device) (jump_connected : bool) (w : W)
  (e : exn) :
  outcome_of (loop_body use_jumpbox jb failed_log send_cmd d jump_connected w) = inl e ->
  exists t c,
    trace (loop_body use_jumpbox jb failed_log send_cmd d jump_connected w)
    = t ++ [Called c (Raised e)]
    /\ (handled e <> None -> use_jumpbox = true /\ c = Disconnect).
Proof.
  body_leaves use_jumpbox jb failed_log send_cmd d jump_connected w; cbn;
    intros Ho; try discriminate; injection Ho as <-;
    match goal with
    | |- exists t c, ?L = t ++ _ /\ _ =>
        exists (removelast L);
        match eval cbn in (last L (Appended "" "")) with
        | Called ?c _ => exists c
        end
    end;
    (split; [reflexivity |]); cbn; intros Hh;
    first [now split | now contradiction Hh].
Qed.

(** In the jump path a tunnel is only opened while the session is open,
    the flag telling whether it is; and in either path the vendor
    session is only started right after a connection was made. *)
Lemma body_protocol (use_jumpbox : bool) (jb : jump_profile)
  (failed_log send_cmd : string) (d : device) (jump_connected : bool) (w : W) :
  (use_jumpbox = true ->
   tunnels_while_open jump_connected
     (trace (loop_body use_jumpbox jb failed_log send_cmd d jump_connected w)) = true)
  /\ forall prev,
       work_follows_connect prev
         (trace (loop_body use_jumpbox jb failed_log send_cmd d jump_connected w)) = true.
Proof.
  body_leaves use_jumpbox jb failed_log send_cmd d jump_connected w; cbn;
    (split; [first [discriminate | reflexivity] | intros prev; reflexivity]).
Qed.

End Iteration.
Section Alphabet.
Context {W : Type} `{Collaborators W}.

Lemma emits_weaken {A} (P Q : event -> bool) (m : M W A) :
  (forall e, P e = true -> Q e = true) -> emits P m -> emits Q m.
Proof.
  intros HPQ Hm w. specialize (Hm w).
  rewrite forallb_forall in *. intros e He. apply HPQ, Hm, He.
Qed.

Lemma per_device_work_alphabet (use_jumpbox : bool) (jb : jump_profile)
  (failed_log send_cmd : string) (d : device) :
  emits (W:=W) (event_for use_jumpbox jb failed_log send_cmd d)
    (per_device_work (enable d) send_cmd).
Proof.
  unfold per_device_work.
  repeat first
    [ apply emits_bind; [| intros ?]
    | match goal with
      | |- emits ?P (invoke ?c) =>
          refine (emits_invoke P c _); intros ?; cbn; now rewrite ?String.eqb_refl
      end ].
Qed.

(** Whatever an iteration does, it does with the data of its own device,
    the jump-box profile, the command and the failure log, and with the
    calls of its own path. *)
Lemma loop_body_alphabet (use_jumpbox : bool) (jb : jump_profile)
  (failed_log send_cmd : string) (d : device) (jump_connected : bool) :
  emits (W:=W) (event_for use_jumpbox jb failed_log send_cmd d)
    (loop_body use_jumpbox jb failed_log send_cmd d jump_connected).
Proof.
  unfold loop_body.
  destruct use_jumpbox;
    [ destruct (PyStr.contains "ssh" (PyStr.lower (protocol d)));
      [| destruct (String.eqb (PyStr.lower (protocol d)) "telnet") ] |];
    try apply emits_ret;
    apply emits_try_except;
    try (intros [m | m | m | m] k Hk; cbn in Hk; inversion Hk; subst);
    unfold jump_try;
    repeat first
      [ apply per_device_work_alphabet
      | apply emits_ret
      | apply emits_append; cbn; now rewrite String.eqb_refl
      | apply emits_bind; [| intros ?]
      | match goal with
        | |- emits ?P (invoke ?c) =>
            refine (emits_invoke P c _); intros ?; cbn; now rewrite ?String.eqb_refl
        | |- emits _ (if ?b then _ else _) => destruct b
        end ].
Qed.

End Alphabet.
Section Loop.
Context {W : Type} `{Collaborators W}.

Lemma written_files_app (t1 t2 : list event) :
  written_files (t1 ++ t2) = written_files t1 ++ written_files t2.
Proof. unfold written_files. apply flat_map_app. Qed.

Lemma tunnels_while_open_app (t1 t2 : list event) :
  forall open,
    tunnels_while_open open (t1 ++ t2)
    = tunnels_while_open open t1 && tunnels_while_open (session_open open t1) t2.
Proof.
  induction t1 as [| e t1 IH]; intros open; cbn [app tunnels_while_open].
  - reflexivity.
  - rewrite IH, andb_assoc. reflexivity.
Qed.

Lemma work_follows_connect_app (t1 t2 : list event) :
  (forall prev, work_follows_connect prev t2 = true) ->
  forall prev, work_follows_connect prev (t1 ++ t2) = work_follows_connect prev t1.
Proof.
  intros H2. induction t1 as [| e t1 IH]; intros prev; cbn [app work_follows_connect].
  - apply H2.
  - now rewrite IH.
Qed.



(** X2.  When no call raises, the loop ends normally, logs nothing, and
    connects to and writes one output file for exactly the devices it
    serves, in list order: every device in the direct path, the
    jump-routed ones in the jump path. *)
Theorem clean_loop_serves_each_device_once (use_jumpbox : bool) (jb : jump_profile)
  (failed_log send_cmd : string) (device_list : list device) :
  forall (jump_connected : bool) (w : W),
    all_returned
      (trace (device_loop use_jumpbox jb failed_log send_cmd device_list
                          jump_connected w)) = true ->
    appended
      (trace (device_loop use_jumpbox jb failed_log send_cmd device_list
                          jump_connected w)) = []
    /\ length (written_files
                 (trace (device_loop use_jumpbox jb failed_log send_cmd device_list
                                     jump_connected w)))
       = length (filter (served use_jumpbox) device_list)
    /\ attempted_hosts
         (trace (device_loop use_jumpbox jb failed_log send_cmd device_list
                             jump_connected w))
       = map hostname (filter (served use_jumpbox) device_list)
    /\ exists jc',
         outcome_of (device_loop use_jumpbox jb failed_log send_cmd device_list
                                 jump_connected w) = inr jc'.
Proof.
  induction device_list as [| d rest IH]; intros jump_connected w.
  - cbn. intros _. repeat split. now exists jump_connected.
  - rewrite device_loop_step.
    pose proof (body_clean use_jumpbox jb failed_log send_cmd d jump_connected w) as B.
    destruct (outcome_of (loop_body use_jumpbox jb failed_log send_cmd d jump_connected w))
      as [e | jc1]; cbn [world trace outcome_of].
    + intros Hall. destruct (B Hall) as (_ & _ & _ & jc' & Hj). discriminate Hj.
    + rewrite all_returned_app, andb_true_iff. intros [H1 H2].
      destruct (B H1) as (B1 & B2 & B3 & _).
      destruct (IH jc1 _ H2) as (I1 & I2 & I3 & I4).
      rewrite appended_app, written_files_app, attempted_hosts_app, length_app.
      rewrite B1, B2, B3, I1, I2, I3. cbn [filter].
      destruct (served use_jumpbox d); cbn; repeat split; auto.
Qed.

(** X3.  Every line the loop appends goes to the failure log and has one
    of the two wordings, with the host name of a device of the list;
    the jump path only ever writes "Connect to ... failed", also for an
    interaction error. *)
Theorem failure_log_lines_name_listed_devices (use_jumpbox : bool) (jb : jump_profile)
  (failed_log send_cmd : string) (device_list : list device) :
  forall (jump_connected : bool) (w : W) (path text : string),
    In (path, text)
       (appended (trace (device_loop use_jumpbox jb failed_log send_cmd device_list
                                     jump_connected w))) ->
    path = failed_log
    /\ exists d msg,
         In d device_list
         /\ (text = connect_failed_line (hostname d) msg
             \/ (use_jumpbox = false /\ text = failure_on_line (hostname d) msg)).
Proof.
  induction device_list as [| d rest IH]; intros jump_connected w path text.
  - cbn. contradiction.
  - rewrite device_loop_step.
    pose proof (body_lines use_jumpbox jb failed_log send_cmd d jump_connected w path text)
      as B.
    assert (Hd : In (path, text)
                   (appended (trace (loop_body use_jumpbox jb failed_log send_cmd d
                                               jump_connected w))) ->
                 path = failed_log
                 /\ exists d0 msg,
                      In d0 (d :: rest)
                      /\ (text = connect_failed_line (hostname d0) msg
                          \/ (use_jumpbox = false
                              /\ text = failure_on_line (hostname d0) msg))).
    { intros Hin. destruct (B Hin) as (Hp & msg & Hm).
      split; [exact Hp |]. exists d, msg. split; [now left | exact Hm]. }
    destruct (outcome_of (loop_body use_jumpbox jb failed_log send_cmd d jump_connected w))
      as [e | jc1]; cbn [world trace outcome_of].
    + exact Hd.
    + rewrite appended_app, in_app_iff. intros [Hin | Hin]; [now apply Hd |].
      destruct (IH jc1 _ path text Hin) as (Hp & d0 & msg & Hd0 & Hm).
      split; [exact Hp |]. exists d0, msg. split; [now right | exact Hm].
Qed.

(** X4.  When the first call that raises in an iteration raises an
    exception no handler names, the loop ends there with that
    exception: nothing is logged for the device and the devices after
    it are not visited. *)
Theorem unhandled_exception_ends_the_loop (use_jumpbox : bool) (jb : jump_profile)
  (failed_log send_cmd : string) (d : device) (rest : list device)
  (jump_connected : bool) (w : W) (c : call) (e : exn) :
  first_raised
    (trace (loop_body use_jumpbox jb failed_log send_cmd d jump_connected w))
    = Some (c, e) ->
  handled e = None ->
  outcome_of (device_loop use_jumpbox jb failed_log send_cmd (d :: rest)
                          jump_connected w) = inl e
  /\ trace (device_loop use_jumpbox jb failed_log send_cmd (d :: rest) jump_connected w)
     = trace (loop_body use_jumpbox jb failed_log send_cmd d jump_connected w)
  /\ appended (trace (device_loop use_jumpbox jb failed_log send_cmd (d :: rest)
                                  jump_connected w)) = []
  /\ exists t,
       trace (device_loop use_jumpbox jb failed_log send_cmd (d :: rest)
                          jump_connected w)
       = t ++ [Called c (Raised e)].
Proof.
  intros Hfr Hh.
  destruct (body_unhandled use_jumpbox jb failed_log send_cmd d jump_connected w c e
              Hfr Hh) as (Ho & Ha & t & Ht).
  rewrite device_loop_step, Ho. cbn [trace outcome_of].
  repeat split; auto. now exists t.
Qed.

(** X5.  A connect error or an interaction error never stops the loop
    in the direct path.  In the jump path such an error leaves the loop
    in one way only: raised by the full disconnect that the handler
    itself makes, which is then the last call of the trace. *)
Theorem session_error_leaves_only_from_the_jump_handler (use_jumpbox : bool)
  (jb : jump_profile) (failed_log send_cmd : string) (device_list : list device) :
  forall (jump_connected : bool) (w : W) (e : exn) (msg : string),
    outcome_of (device_loop use_jumpbox jb failed_log send_cmd device_list
                            jump_connected w) = inl e ->
    handled e = Some msg ->
    use_jumpbox = true
    /\ exists t,
         trace (device_loop use_jumpbox jb failed_log send_cmd device_list
                            jump_connected w)
         = t ++ [Called Disconnect (Raised e)].
Proof.
  induction device_list as [| d rest IH]; intros jump_connected w e msg.
  - cbn. discriminate.
  - rewrite device_loop_step.
    pose proof (body_escape use_jumpbox jb failed_log send_cmd d jump_connected w) as B.
    destruct (outcome_of (loop_body use_jumpbox jb failed_log send_cmd d jump_connected w))
      as [e1 | jc1]; cbn [world trace outcome_of].
    + intros Ho Hh. injection Ho as <-.
      destruct (B e1 eq_refl) as (t & c & Ht & Hc).
      destruct Hc as (Hu & ->); [congruence |].
      split; [exact Hu |]. now exists t.
    + intros Ho Hh. destruct (IH jc1 _ e msg Ho Hh) as (Hu & t & Ht).
      split; [exact Hu |].
      exists (trace (loop_body use_jumpbox jb failed_log send_cmd d jump_connected w) ++ t).
      rewrite Ht. now rewrite app_assoc.
Qed.

(** X6.  Every event of the loop belongs to a device of the list: a
    connection is only ever tried with the host, user name and password
    of one and the same listed device, the vendor session is started
    with a listed device's enable secret, the only command written is
    the one given, the only file appended to is the failure log, and
    the loop neither prompts nor touches the settings. *)
Theorem loop_events_belong_to_listed_devices (use_jumpbox : bool) (jb : jump_profile)
  (failed_log send_cmd : string) (device_list : list device) :
  forall (jump_connected : bool) (w : W) (e : event),
    In e (trace (device_loop use_jumpbox jb failed_log send_cmd device_list
                             jump_connected w)) ->
    exists d,
      In d device_list /\ event_for use_jumpbox jb failed_log send_cmd d e = true.
Proof.
  induction device_list as [| d rest IH]; intros jump_connected w e.
  - cbn. contradiction.
  - rewrite device_loop_step.
    pose proof (loop_body_alphabet use_jumpbox jb failed_log send_cmd d jump_connected w)
      as B.
    rewrite forallb_forall in B.
    destruct (outcome_of (loop_body use_jumpbox jb failed_log send_cmd d jump_connected w))
      as [e1 | jc1]; cbn [world trace outcome_of].
    + intros Hin. exists d. split; [now left | now apply B].
    + rewrite in_app_iff. intros [Hin | Hin].
      * exists d. split; [now left | now apply B].
      * destruct (IH jc1 _ e Hin) as (d0 & Hd0 & He). exists d0. split; [now right | exact He].
Qed.

End Loop.
Section WholeRun.
Context {W : Type} `{Collaborators W}.

Lemma device_loop_emits (P : event -> bool) (use_jumpbox : bool) (jb : jump_profile)
  (failed_log send_cmd : string) (device_list : list device) :
  (forall d e, event_for use_jumpbox jb failed_log send_cmd d e = true -> P e = true) ->
  forall jump_connected,
    emits (W:=W) P
      (device_loop use_jumpbox jb failed_log send_cmd device_list jump_connected).
Proof.
  intros HP.
  induction device_list as [| d rest IH]; intros jump_connected; cbn [device_loop].
  - apply emits_ret.
  - apply emits_bind; [| intros jc; apply IH].
    apply (emits_weaken (event_for use_jumpbox jb failed_log send_cmd d)).
    + apply HP.
    + apply loop_body_alphabet.
Qed.

Lemma event_for_session (use_jumpbox : bool) (jb : jump_profile)
  (failed_log send_cmd : string) (d : device) (e : event) :
  event_for use_jumpbox jb failed_log send_cmd d e = true ->
  is_session_event e = true /\ is_no_switch_read e = true
  /\ mode_event use_jumpbox e = true.
Proof.
  destruct e as [c o | p t]; [destruct c |]; cbn; try discriminate; auto;
    destruct use_jumpbox; cbn; try discriminate; auto.
Qed.

Lemma connect_loop_section_emits (P : event -> bool) (script_name : string)
  (use_jumpbox : bool) (jb : jump_profile) (send_cmd : string)
  (device_list : list device) :
  (forall failed_log d e,
     event_for use_jumpbox jb failed_log send_cmd d e = true -> P e = true) ->
  (forall o, P (Called (CreateOutputFilename
                          (PyStr.before_dot script_name ++ "-LOG")%string (Some false)) o)
             = true) ->
  (forall o, P (Called Disconnect o) = true) ->
  emits (W:=W) P (connect_loop_section script_name use_jumpbox jb send_cmd device_list).
Proof.
  intros HP Hlog Hdis. unfold connect_loop_section.
  apply emits_bind; [now apply emits_invoke | intros failed_log].
  apply emits_bind; [apply device_loop_emits; apply HP | intros jc].
  destruct jc; [now refine (emits_invoke P Disconnect _) | apply emits_ret].
Qed.

(** *** Setup first, sessions after *)

Lemma setup_bind {A B} (m : M W A) (k : A -> M W B) :
  emits is_setup_event m -> (forall a, setup_then_session (k a)) ->
  setup_then_session (bind m k).
Proof.
  intros Hm Hk w. unfold bind. specialize (Hm w).
  destruct (outcome_of (m w)) as [e | a]; cbn [trace].
  - exists (trace (m w)), []. rewrite app_nil_r. repeat split; auto.
  - destruct (Hk a (world (m w))) as (pre & post & -> & Hpre & Hpost).
    exists (trace (m w) ++ pre), post.
    rewrite app_assoc, forallb_app, Hm, Hpre. repeat split; auto.
Qed.

Lemma setup_only {A} (m : M W A) : emits is_setup_event m -> setup_then_session m.
Proof.
  intros Hm w. exists (trace (m w)), []. rewrite app_nil_r. repeat split; auto.
Qed.

Lemma session_only {A} (m : M W A) : emits is_session_event m -> setup_then_session m.
Proof.
  intros Hm w. exists [], (trace (m w)). repeat split; auto.
Qed.

Lemma jumpbox_section_setup : emits (W:=W) is_setup_event jumpbox_section.
Proof. unfold jumpbox_section. emit. Qed.

(** X7.  Every run of [script_main] is a setup part followed by a
    session part: all prompts and all settings reads and writes come
    before the first call on the session, the first file name and the
    first line of the failure log.  Once devices are being contacted the
    operator is not asked anything. *)
Theorem questions_come_before_connections (script_name : string) (w : W) :
  exists pre post : list event,
    trace (script_main script_name w) = pre ++ post
    /\ forallb is_setup_event pre = true
    /\ forallb is_session_event post = true.
Proof.
  revert w. change (setup_then_session (W:=W) (script_main script_name)).
  unfold script_main.
  apply setup_bind; [now apply emits_invoke | intros _].
  apply setup_bind; [now refine (emits_invoke _ IsConnected _) | intros connected].
  destruct connected; [apply setup_only, emits_raise |].
  apply setup_bind; [now refine (emits_invoke _ ImportDeviceList _) | intros device_list].
  destruct device_list as [| d rest]; [apply setup_only, emits_ret |].
  apply setup_bind; [now refine (emits_invoke _ (PromptWindow _ _) _) | intros send_cmd].
  destruct (String.eqb send_cmd ""); [apply setup_only, emits_ret |].
  apply setup_bind; [now refine (emits_invoke _ (SettingsGetBoolean _ _) _) | intros uj].
  apply setup_bind.
  - destruct uj; [apply jumpbox_section_setup | apply emits_ret].
  - intros jb. apply session_only, connect_loop_section_emits.
    + intros failed_log d0 e He. now apply (event_for_session _ _ _ _ _ _ He).
    + reflexivity.
    + reflexivity.
Qed.

End WholeRun.
Section Paths.
Context {W : Type} `{Collaborators W}.

Lemma switch_bind_before {A B} (m : M W A) (k : A -> M W B) :
  emits is_plain_setup m -> (forall a, respects_switch (k a)) ->
  respects_switch (bind m k).
Proof.
  intros Hm Hk w b. unfold bind. specialize (Hm w).
  rewrite forallb_forall in Hm.
  assert (Hno : ~ In (switch_read b) (trace (m w))).
  { intros Hin. specialize (Hm _ Hin). discriminate Hm. }
  assert (Hmode : forallb (mode_event b) (trace (m w)) = true).
  { rewrite forallb_forall. intros e He. specialize (Hm e He).
    unfold is_plain_setup in Hm. rewrite !andb_true_iff in Hm.
    destruct b; tauto. }
  destruct (outcome_of (m w)) as [e | a]; cbn [trace].
  - intros Hin. contradiction.
  - rewrite in_app_iff, forallb_app, Hmode. intros [Hin | Hin]; [contradiction |].
    now apply Hk.
Qed.

Lemma switch_bind_at {B} (k : bool -> M W B) :
  (forall uj, emits (mode_event uj) (k uj)) ->
  (forall uj, emits is_no_switch_read (k uj)) ->
  respects_switch (bind (invoke (SettingsGetBoolean "Global" "use_jumpbox")) k).
Proof.
  intros Hmode Hno w b.
  destruct (invoke_cases (SettingsGetBoolean "Global" "use_jumpbox") w)
    as [(w1 & e & E) | (w1 & uj & E)].
  - erewrite bind_raises by exact E. cbn. intros [Hin | []]. discriminate Hin.
  - erewrite bind_returns by exact E. cbn [trace app to_value].
    specialize (Hno uj w1). rewrite forallb_forall in Hno.
    intros [Hin | Hin].
    + injection Hin as ->. cbn [forallb]. rewrite (Hmode b w1).
      now destruct b.
    + specialize (Hno _ Hin). discriminate Hno.
Qed.

Lemma no_switch_respects {A} (m : M W A) :
  emits is_no_switch_read m -> respects_switch m.
Proof.
  intros Hm w b Hin. specialize (Hm w). rewrite forallb_forall in Hm.
  specialize (Hm _ Hin). discriminate Hm.
Qed.

Lemma jumpbox_section_jump_mode :
  emits (W:=W) (fun e => mode_event true e && is_no_switch_read e) jumpbox_section.
Proof. unfold jumpbox_section. emit. Qed.

(** X8.  The run keeps to the path the switch selects.  When the
    settings store answers that the jump box is off, the run makes no
    jump-box connect, no tunnel call and no tunnel disconnect, reads
    and writes no jump-box setting and asks for no password; when it
    answers that the jump box is on, the run makes no direct connect. *)
Theorem run_keeps_to_the_selected_path (script_name : string) (w : W) (b : bool) :
  In (switch_read b) (trace (script_main script_name w)) ->
  forallb (mode_event b) (trace (script_main script_name w)) = true.
Proof.
  revert w b. change (respects_switch (W:=W) (script_main script_name)).
  unfold script_main.
  apply switch_bind_before; [now apply emits_invoke | intros _].
  apply switch_bind_before; [now refine (emits_invoke _ IsConnected _) | intros connected].
  destruct connected; [apply no_switch_respects, emits_raise |].
  apply switch_bind_before;
    [now refine (emits_invoke _ ImportDeviceList _) | intros device_list].
  destruct device_list as [| d rest]; [apply no_switch_respects, emits_ret |].
  apply switch_bind_before;
    [now refine (emits_invoke _ (PromptWindow _ _) _) | intros send_cmd].
  destruct (String.eqb send_cmd ""); [apply no_switch_respects, emits_ret |].
  apply switch_bind_at; intros uj.
  - apply emits_bind.
    + destruct uj; [| apply emits_ret].
      apply (emits_weaken (fun e => mode_event true e && is_no_switch_read e));
        [| apply jumpbox_section_jump_mode].
      intros e He. now apply andb_true_iff in He.
    + intros jb. apply connect_loop_section_emits.
      * intros failed_log d0 e He. now apply (event_for_session _ _ _ _ _ _ He).
      * now destruct uj.
      * now destruct uj.
  - apply emits_bind.
    + destruct uj; [| apply emits_ret].
      apply (emits_weaken (fun e => mode_event true e && is_no_switch_read e));
        [| apply jumpbox_section_jump_mode].
      intros e He. now apply andb_true_iff in He.
    + intros jb. apply connect_loop_section_emits.
      * intros failed_log d0 e He. now apply (event_for_session _ _ _ _ _ _ He).
      * reflexivity.
      * reflexivity.
Qed.

(** *** Work only after a connection *)

Lemma no_start_works {A} (m : M W A) :
  emits is_no_work_start m -> works_after_connect m.
Proof.
  intros Hm w. specialize (Hm w).
  induction (trace (m w)) as [| e t IH]; intros prev; cbn in *.
  - reflexivity.
  - apply andb_true_iff in Hm as [He Ht]. rewrite (IH Ht).
    destruct e as [c o | p x]; [destruct c |]; cbn in *; try reflexivity.
    discriminate He.
Qed.

Lemma works_bind {A B} (m : M W A) (k : A -> M W B) :
  works_after_connect m -> (forall a, works_after_connect (k a)) ->
  works_after_connect (bind m k).
Proof.
  intros Hm Hk w prev. unfold bind.
  destruct (outcome_of (m w)) as [e | a]; cbn [trace].
  - apply Hm.
  - rewrite work_follows_connect_app; [apply Hm | intros p; apply Hk].
Qed.

Lemma device_loop_works (use_jumpbox : bool) (jb : jump_profile)
  (failed_log send_cmd : string) (device_list : list device) :
  forall jump_connected,
    works_after_connect (W:=W)
      (device_loop use_jumpbox jb failed_log send_cmd device_list jump_connected).
Proof.
  induction device_list as [| d rest IH]; intros jump_connected; cbn [device_loop].
  - apply no_start_works, emits_ret.
  - apply works_bind; [| intros jc; apply IH].
    intros w prev.
    now destruct (body_protocol use_jumpbox jb failed_log send_cmd d jump_connected w)
      as (_ & ->).
Qed.

Lemma jumpbox_section_no_start : emits (W:=W) is_no_work_start jumpbox_section.
Proof. unfold jumpbox_section. emit. Qed.

(** X9.  In every run of [script_main], each start of a vendor session
    comes right after a connect or tunnel call that returned: the work
    unit is never started on a device the script failed to reach, nor
    twice on one connection. *)
Theorem work_starts_right_after_a_connection (script_name : string) (w : W) :
  work_follows_connect false (trace (script_main script_name w)) = true.
Proof.
  revert w. cut (works_after_connect (W:=W) (script_main script_name)).
  { intros Hw w. apply Hw. }
  unfold script_main, connect_loop_section.
  repeat first
    [ apply device_loop_works
    | apply works_bind; [| intros ?]
    | match goal with
      | |- works_after_connect (if ?b then _ else _) => destruct b
      | |- works_after_connect (match ?l with [] => _ | _ :: _ => _ end) => destruct l
      | |- works_after_connect jumpbox_section =>
          apply no_start_works, jumpbox_section_no_start
      | |- works_after_connect (invoke ?c) =>
          apply no_start_works; now refine (emits_invoke _ c _)
      | |- works_after_connect (ret _) => apply no_start_works, emits_ret
      | |- works_after_connect (raise _) => apply no_start_works, emits_raise
      end ].
Qed.

End Paths.
Section Endings.
Context {W : Type} `{Collaborators W}.

Lemma raises_last_ret {A} (a : A) : raises_last (W:=W) (ret a).
Proof. intros w. exact I. Qed.

Lemma raises_last_invoke (c : call) : raises_last (W:=W) (invoke c).
Proof.
  intros w. destruct (invoke_cases c w) as [(w1 & e & ->) | (w1 & a & ->)]; cbn.
  - now exists [], c.
  - exact I.
Qed.

Lemma raises_last_bind {A B} (m : M W A) (k : A -> M W B) :
  raises_last m -> (forall a, raises_last (k a)) -> raises_last (bind m k).
Proof.
  intros Hm Hk w. unfold bind. specialize (Hm w).
  destruct (outcome_of (m w)) as [e | a]; cbn [trace outcome_of].
  - exact Hm.
  - specialize (Hk a (world (m w))).
    destruct (outcome_of (k a (world (m w)))) as [e | b]; [| exact I].
    destruct Hk as (t & c & ->). exists (trace (m w) ++ t), c. now rewrite app_assoc.
Qed.

Lemma device_loop_raises_last (use_jumpbox : bool) (jb : jump_profile)
  (failed_log send_cmd : string) (device_list : list device) :
  forall jump_connected,
    raises_last (W:=W)
      (device_loop use_jumpbox jb failed_log send_cmd device_list jump_connected).
Proof.
  induction device_list as [| d rest IH]; intros jump_connected; cbn [device_loop].
  - apply raises_last_ret.
  - apply raises_last_bind; [| intros jc; apply IH].
    intros w.
    pose proof (body_escape use_jumpbox jb failed_log send_cmd d jump_connected w) as B.
    destruct (outcome_of (loop_body use_jumpbox jb failed_log send_cmd d jump_connected w))
      as [e | jc]; [| exact I].
    destruct (B e eq_refl) as (t & c & Ht & _). now exists t, c.
Qed.

(** Follow the structure of a computation down to calls and the loop. *)
Ltac last_call :=
  repeat first
    [ apply device_loop_raises_last
    | apply raises_last_ret
    | apply raises_last_bind; [| intros ?]
    | match goal with
      | |- raises_last (invoke ?c) => exact (raises_last_invoke c)
      | |- raises_last (if ?b then _ else _) => destruct b
      | |- raises_last (match ?l with [] => _ | _ :: _ => _ end) => destruct l
      end ].

(** X10.  The only exception the script raises itself is the script
    error of the connected tab.  Any other exception of one of the three
    classes the script names (connect error, interaction error, script
    error) that leaves [script_main] was raised by a collaborator call,
    and that call is the last event of the trace: once such an exception
    is on its way out the script closes no session and writes no line.
    Exceptions of other classes, those of the file system among them,
    are not what this is about. *)
Theorem named_exception_leaves_at_the_call_that_raised (script_name : string) (w : W)
  (e : exn) :
  outcome_of (script_main script_name w) = inl e ->
  is_named_exception e = true ->
  (e = ScriptError "This script must be launched in a not-connected tab."
   /\ exists t,
        trace (script_main script_name w)
        = t ++ [Called IsConnected (Returned (VBool true))])
  \/ exists t c, trace (script_main script_name w) = t ++ [Called c (Raised e)].
Proof.
  unfold script_main.
  destruct (invoke_cases GetMainSession w) as [(w1 & e1 & E1) | (w1 & u & E1)].
  { erewrite bind_raises by exact E1. cbn. intros He _. injection He as <-.
    right. now exists [], GetMainSession. }
  erewrite bind_returns by exact E1. cbn [world trace outcome_of].
  destruct (invoke_cases IsConnected w1) as [(w2 & e2 & E2) | (w2 & connected & E2)].
  { erewrite bind_raises by exact E2. cbn. intros He _. injection He as <-.
    right. now exists [Called GetMainSession (Returned VNone)], IsConnected. }
  erewrite bind_returns by exact E2. cbn [world trace outcome_of].
  destruct connected.
  { cbn. intros He _. injection He as <-. left. split; [reflexivity |].
    now exists [Called GetMainSession (Returned VNone)]. }
  match goal with
  | |- outcome_of (?m w2) = _ -> _ -> _ =>
      assert (R : raises_last m) by (unfold connect_loop_section; last_call)
  end.
  specialize (R w2). intros He _. rewrite He in R. destruct R as (t & c & ->).
  right. exists ([Called GetMainSession (Returned VNone)]
                 ++ [Called IsConnected (Returned (to_value IsConnected false))] ++ t), c.
  now rewrite <- !app_assoc.
Qed.

(** *** Tunnels and the jump-box session *)

Lemma jump_loop_tunnels (jb : jump_profile) (failed_log send_cmd : string)
  (device_list : list device) :
  forall (jump_connected : bool) (w : W),
    tunnels_while_open jump_connected
      (trace (device_loop true jb failed_log send_cmd device_list jump_connected w))
    = true.
Proof.
  induction device_list as [| d rest IH]; intros jump_connected w.
  - reflexivity.
  - rewrite device_loop_step.
    destruct (body_protocol true jb failed_log send_cmd d jump_connected w) as (B & _).
    destruct (jump_body_account jb failed_log send_cmd d jump_connected w)
      as (_ & _ & A3 & _).
    destruct (outcome_of (loop_body true jb failed_log send_cmd d jump_connected w))
      as [e | jc1]; cbn [world trace outcome_of].
    + now apply B.
    + rewrite tunnels_while_open_app, (B eq_refl), (A3 jc1 eq_refl). apply IH.
Qed.

(** X11.  In the jump path a tunnel to a device is only ever opened
    while the jump-box session is open: after each failure the jump box
    is connected again before the next tunnel call, and a tunnel call is
    never made on a session that a handler has closed. *)
Theorem tunnels_only_through_an_open_jump_session (script_name : string)
  (jb : jump_profile) (send_cmd : string) (device_list : list device) (w : W) :
  tunnels_while_open false
    (trace (connect_loop_section script_name true jb send_cmd device_list w)) = true.
Proof.
  unfold connect_loop_section.
  destruct (invoke_cases
              (CreateOutputFilename (PyStr.before_dot script_name ++ "-LOG")%string
                                    (Some false)) w)
    as [(w1 & e & E) | (w1 & failed_log & E)].
  { erewrite bind_raises by exact E. reflexivity. }
  erewrite bind_returns by exact E. cbn [world trace outcome_of].
  change ([?x] ++ ?t) with (x :: t). cbn [tunnels_while_open session_step andb].
  pose proof (jump_loop_tunnels jb failed_log send_cmd device_list false w1) as L.
  destruct (device_loop true jb failed_log send_cmd device_list false w1)
    as [wl tl [e | jc]] eqn:El; cbn [trace] in L.
  { erewrite bind_raises by exact El. exact L. }
  erewrite bind_returns by exact El. cbn [world trace outcome_of].
  rewrite tunnels_while_open_app, L.
  destruct jc; [| reflexivity].
  destruct (invoke_cases Disconnect wl) as [(w2 & e & ->) | (w2 & a & ->)]; reflexivity.
Qed.

End Endings.
Section Strings.

Lemma lstrip_app (s t : string) :
  PyStr.lstrip (s ++ t) = if all_space s then PyStr.lstrip t else (PyStr.lstrip s ++ t)%string.
Proof.
  induction s as [| c r IH]; cbn [String.append PyStr.lstrip all_space].
  - reflexivity.
  - destruct (PyStr.is_space c); cbn [andb]; [exact IH | reflexivity].
Qed.

Lemma lstrip_all_space (s : string) : all_space s = true -> PyStr.lstrip s = "".
Proof.
  induction s as [| c r IH]; cbn; [reflexivity |].
  destruct (PyStr.is_space c); cbn; [exact IH | discriminate].
Qed.

Lemma rstrip_all_space (s : string) : all_space s = true -> PyStr.rstrip s = "".
Proof.
  induction s as [| c r IH]; cbn; [reflexivity |].
  destruct (PyStr.is_space c); cbn; [| discriminate].
  intros Hr. now rewrite (IH Hr).
Qed.

Lemma rstrip_app_space (s ws : string) :
  all_space ws = true -> PyStr.rstrip (s ++ ws) = PyStr.rstrip s.
Proof.
  intros Hws. induction s as [| c r IH]; cbn [String.append PyStr.rstrip].
  - now apply rstrip_all_space.
  - now rewrite IH.
Qed.

Lemma strip_ignores_padding (ws1 ws2 s : string) :
  all_space ws1 = true -> all_space ws2 = true ->
  PyStr.strip (ws1 ++ s ++ ws2) = PyStr.strip s.
Proof.
  intros H1 H2. unfold PyStr.strip.
  rewrite lstrip_app, H1, lstrip_app.
  destruct (all_space s) eqn:Hs.
  - now rewrite (lstrip_all_space ws2 H2), (lstrip_all_space s Hs).
  - now apply rstrip_app_space.
Qed.

Lemma rstrip_idempotent (s : string) : PyStr.rstrip (PyStr.rstrip s) = PyStr.rstrip s.
Proof.
  induction s as [| c r IH]; cbn [PyStr.rstrip]; [reflexivity |].
  destruct (PyStr.rstrip r) as [| c' r'] eqn:Hr.
  - destruct (PyStr.is_space c) eqn:Hc; cbn [PyStr.rstrip]; [reflexivity |].
    now rewrite Hc.
  - change (PyStr.rstrip (String c (String c' r')))
      with (match PyStr.rstrip (String c' r') with
            | EmptyString =>
                if PyStr.is_space c then EmptyString else String c EmptyString
            | String x y => String c (String x y)
            end).
    now rewrite IH.
Qed.

Lemma lstrip_rstrip_lstrip (s : string) :
  PyStr.lstrip (PyStr.rstrip (PyStr.lstrip s)) = PyStr.rstrip (PyStr.lstrip s).
Proof.
  induction s as [| c r IH]; cbn [PyStr.lstrip]; [reflexivity |].
  destruct (PyStr.is_space c) eqn:Hc; [exact IH |].
  cbn [PyStr.rstrip].
  destruct (PyStr.rstrip r); rewrite ?Hc; cbn [PyStr.lstrip]; now rewrite Hc.
Qed.

(** X12.  The message of a logged line is trimmed on both sides, so two
    errors whose messages differ only in surrounding white space are
    logged as the same line, in either wording; trimming what is already
    trimmed changes nothing. *)
Theorem logged_message_ignores_surrounding_space (host msg ws1 ws2 : string) :
  all_space ws1 = true ->
  all_space ws2 = true ->
  connect_failed_line host (ws1 ++ msg ++ ws2) = connect_failed_line host msg
  /\ failure_on_line host (ws1 ++ msg ++ ws2) = failure_on_line host msg
  /\ PyStr.lstrip (PyStr.strip msg) = PyStr.strip msg
  /\ PyStr.rstrip (PyStr.strip msg) = PyStr.strip msg.
Proof.
  intros H1 H2. unfold connect_failed_line, failure_on_line.
  rewrite (strip_ignores_padding ws1 ws2 msg H1 H2).
  repeat split.
  - apply lstrip_rstrip_lstrip.
  - apply rstrip_idempotent.
Qed.

Lemma before_dot_stem (stem rest : string) :
  no_dot stem = true -> PyStr.before_dot (stem ++ String "."%char rest) = stem.
Proof.
  induction stem as [| c r IH]; cbn [String.append PyStr.before_dot no_dot].
  - reflexivity.
  - destruct (Ascii.eqb c ".") eqn:Hc; cbn [negb andb]; [discriminate |].
    intros Hr. now rewrite (IH Hr).
Qed.

Lemma before_dot_whole (s : string) : no_dot s = true -> PyStr.before_dot s = s.
Proof.
  induction s as [| c r IH]; cbn [PyStr.before_dot no_dot]; [reflexivity |].
  destruct (Ascii.eqb c ".") eqn:Hc; cbn [negb andb]; [discriminate |].
  intros Hr. now rewrite (IH Hr).
Qed.

Lemma prefix_spec (n h : string) :
  String.prefix n h = true <-> exists b, h = (n ++ b)%string.
Proof.
  revert h. induction n as [| c r IH]; intros h.
  - destruct h; cbn; (split; [intros _; eauto | reflexivity]).
  - destruct h as [| c' r']; cbn.
    + split; [discriminate | intros (b & Hb); discriminate Hb].
    + destruct (ascii_dec c c') as [<- | Hne].
      * rewrite IH. split; intros (b & Hb); exists b; [now rewrite Hb | now injection Hb].
      * split; [discriminate | intros (b & Hb)]. injection Hb as -> _. contradiction.
Qed.

Lemma contains_spec (n h : string) :
  PyStr.contains n h = true <-> exists a b, h = (a ++ n ++ b)%string.
Proof.
  induction h as [| c r IH]; cbn [PyStr.contains].
  - rewrite orb_false_r, prefix_spec. split.
    + intros (b & Hb). now exists "", b.
    + intros (a & b & Hab). destruct a; [now exists b | discriminate Hab].
  - rewrite orb_true_iff, prefix_spec, IH. split.
    + intros [(b & Hb) | (a & b & Hab)].
      * now exists "", b.
      * exists (String c a), b. cbn. now rewrite Hab.
    + intros (a & b & Hab). destruct a as [| c' a'].
      * left. now exists b.
      * right. cbn in Hab. injection Hab as _ Hr. now exists a', b.
Qed.

End Strings.

Section NamesAndRouting.
Context {W : Type} `{Collaborators W}.

(** X13.  The failure log is named after the script: the connect loop
    section starts by asking for an output file name for the
    description "<stem>-LOG", without host name, where the stem is the
    script name up to its first dot (the whole name when it has no
    dot). *)
Theorem failure_log_named_after_script_stem (stem rest : string)
  (use_jumpbox : bool) (jb : jump_profile) (send_cmd : string)
  (device_list : list device) (w : W) :
  no_dot stem = true ->
  (exists o tail,
     trace (connect_loop_section (stem ++ "." ++ rest)%string use_jumpbox jb send_cmd
              device_list w)
     = Called (CreateOutputFilename (stem ++ "-LOG")%string (Some false)) o :: tail)
  /\ exists o tail,
       trace (connect_loop_section stem use_jumpbox jb send_cmd device_list w)
       = Called (CreateOutputFilename (stem ++ "-LOG")%string (Some false)) o :: tail.
Proof.
  intros Hs. unfold connect_loop_section.
  change (stem ++ "." ++ rest)%string with (stem ++ String "."%char rest)%string.
  rewrite (before_dot_stem stem rest Hs), (before_dot_whole stem Hs).
  destruct (invoke_cases (CreateOutputFilename (stem ++ "-LOG")%string (Some false)) w)
    as [(w1 & e & E) | (w1 & f & E)].
  - erewrite bind_raises by exact E. cbn. split; eauto.
  - erewrite bind_returns by exact E. cbn. split; eauto.
Qed.

(** X14.  In the jump path a device is passed over exactly when its
    protocol, lower-cased, neither has "ssh" as a substring nor is
    "telnet": the iteration leaves an empty trace in that case and in
    no other. *)
Theorem jump_path_skips_exactly_the_unrouted (jb : jump_profile)
  (failed_log send_cmd : string) (d : device) (jump_connected : bool) (w : W) :
  trace (loop_body true jb failed_log send_cmd d jump_connected w) = []
  <-> ~ ((exists a b, PyStr.lower (protocol d) = (a ++ "ssh" ++ b)%string)
         \/ PyStr.lower (protocol d) = "telnet").
Proof.
  assert (Hr : jump_routed d = true
               <-> (exists a b, PyStr.lower (protocol d) = (a ++ "ssh" ++ b)%string)
                   \/ PyStr.lower (protocol d) = "telnet").
  { unfold jump_routed. rewrite orb_true_iff, contains_spec, String.eqb_eq. tauto. }
  rewrite <- Hr. clear Hr.
  destruct (jump_routed d) eqn:Hr.
  - split; [| intros Hn; now contradiction Hn].
    intros Ht. exfalso. revert Ht.
    destruct (jump_body_shape jb failed_log send_cmd d jump_connected w Hr)
      as (tb & res & o & Hs & Hf).
    use_finish Hf.
    inversion Hs as [e Hjc | tb' res' Hb]; subst; clear Hs.
    + open_finish; cbn; discriminate.
    + inversion Hb; subst; clear Hb; destruct jump_connected; open_finish; cbn;
        discriminate.
  - rewrite (jump_body_skip jb failed_log send_cmd d jump_connected w Hr).
    split; [discriminate | reflexivity].
Qed.

End NamesAndRouting.
Section DirectPath.
Context {W : Type} `{Collaborators W}.

(** One iteration of the direct path hands the flag on as it found it;
    when nothing raises it makes one full disconnect and leaves the
    session closed. *)
Lemma direct_body_balance (jb : jump_profile) (failed_log send_cmd : string)
  (d : device) (jump_connected : bool) (w : W) :
  (forall jc',
     outcome_of (loop_body false jb failed_log send_cmd d jump_connected w) = inr jc' ->
     jc' = jump_connected)
  /\ (all_returned (trace (loop_body false jb failed_log send_cmd d jump_connected w))
      = true ->
      disconnects (trace (loop_body false jb failed_log send_cmd d jump_connected w)) = 1
      /\ forall open,
           session_open open
             (trace (loop_body false jb failed_log send_cmd d jump_connected w)) = false).
Proof.
  destruct (direct_body_shape jb failed_log send_cmd d jump_connected w)
    as (tb & res & Hs & Hf).
  use_finish Hf. open_shapes; open_finish; cbn;
    (split; [intros jc' Hj; first [discriminate Hj | now injection Hj] |]);
    first [discriminate | intros _; split; [reflexivity | intros []; reflexivity]].
Qed.

Lemma direct_loop_balance (jb : jump_profile) (failed_log send_cmd : string)
  (device_list : list device) :
  forall (jump_connected : bool) (w : W),
    (forall jc',
       outcome_of (device_loop false jb failed_log send_cmd device_list jump_connected w)
       = inr jc' -> jc' = jump_connected)
    /\ (all_returned
          (trace (device_loop false jb failed_log send_cmd device_list jump_connected w))
        = true ->
        disconnects
          (trace (device_loop false jb failed_log send_cmd device_list jump_connected w))
        = length device_list
        /\ length (written_files
                     (trace (device_loop false jb failed_log send_cmd device_list
                                         jump_connected w)))
           = length device_list
        /\ (forall open,
              session_open open
                (trace (device_loop false jb failed_log send_cmd device_list
                                    jump_connected w))
              = match device_list with [] => open | _ :: _ => false end)
        /\ outcome_of (device_loop false jb failed_log send_cmd device_list
                                   jump_connected w) = inr jump_connected).
Proof.
  induction device_list as [| d rest IH]; intros jump_connected w.
  - cbn. split; [intros jc' Hj; now injection Hj | intros _; repeat split].
  - rewrite device_loop_step.
    destruct (direct_body_balance jb failed_log send_cmd d jump_connected w) as (B1 & B2).
    pose proof (body_clean false jb failed_log send_cmd d jump_connected w) as B3.
    destruct (outcome_of (loop_body false jb failed_log send_cmd d jump_connected w))
      as [e | jc1]; cbn [world trace outcome_of].
    + split; [discriminate |]. intros Hall.
      destruct (B3 Hall) as (_ & _ & _ & jc' & Hj). discriminate Hj.
    + rewrite (B1 jc1 eq_refl).
      destruct (IH jump_connected
                   (world (loop_body false jb failed_log send_cmd d jump_connected w)))
        as (I1 & I2).
      split; [exact I1 |].
      rewrite all_returned_app, andb_true_iff. intros [H1 H2].
      destruct (B2 H1) as (D1 & D2). destruct (B3 H1) as (_ & F1 & _).
      destruct (I2 H2) as (D3 & F2 & D4 & D5).
      rewrite disconnects_app, written_files_app, length_app, D1, D3, F1, F2.
      cbn [served length]. repeat split; [| exact D5].
      intros open. rewrite session_open_app, D2, D4. now destruct rest.
Qed.

(** The direct path's section in a run where nothing raises. *)
Lemma direct_section_clean (script_name : string)
  (jb : jump_profile) (send_cmd : string) (device_list : list device) (w : W) :
  all_returned
    (trace (connect_loop_section script_name false jb send_cmd device_list w)) = true ->
  disconnects (trace (connect_loop_section script_name false jb send_cmd device_list w))
    = length device_list
  /\ length (written_files
               (trace (connect_loop_section script_name false jb send_cmd device_list w)))
     = length device_list
  /\ session_open false
       (trace (connect_loop_section script_name false jb send_cmd device_list w)) = false
  /\ outcome_of (connect_loop_section script_name false jb send_cmd device_list w)
     = inr tt.
Proof.
  unfold connect_loop_section.
  destruct (invoke_cases
              (CreateOutputFilename (PyStr.before_dot script_name ++ "-LOG")%string
                                    (Some false)) w)
    as [(w1 & e & E) | (w1 & failed_log & E)].
  { erewrite bind_raises by exact E. cbn. discriminate. }
  erewrite bind_returns by exact E. cbn [world trace outcome_of].
  destruct (direct_loop_balance jb failed_log send_cmd device_list false w1) as (_ & L2).
  destruct (device_loop false jb failed_log send_cmd device_list false w1)
    as [wl tl ol] eqn:El; cbn [world trace outcome_of] in L2.
  change ([?x] ++ ?t) with (x :: t).
  destruct ol as [e | jc].
  { erewrite bind_raises by exact El. cbn [trace].
    change (?x :: ?t) with ([x] ++ t).
    rewrite all_returned_app, andb_true_iff. intros [_ Hall].
    destruct (L2 Hall) as (_ & _ & _ & Ho). discriminate Ho. }
  erewrite bind_returns by exact El. cbn [world trace outcome_of].
  change (?x :: ?t ++ ?u) with ([x] ++ t ++ u).
  rewrite !all_returned_app, !andb_true_iff. intros (_ & Hall & _).
  destruct (L2 Hall) as (D1 & F1 & D2 & Ho). injection Ho as ->.
  cbn [ret trace outcome_of]. rewrite app_nil_r.
  rewrite disconnects_app, written_files_app, length_app, session_open_app, D1, D2, F1.
  repeat split. now destruct device_list.
Qed.

(** In the direct path the section makes no call after the loop. *)
Lemma direct_section_ends_with_the_loop (script_name : string) (jb : jump_profile)
  (send_cmd : string) (device_list : list device) (w w1 : W) (log_name : string) :
  perform (CreateOutputFilename (PyStr.before_dot script_name ++ "-LOG")%string
                                (Some false)) w = (w1, inr log_name) ->
  trace (connect_loop_section script_name false jb send_cmd device_list w)
  = Called (CreateOutputFilename (PyStr.before_dot script_name ++ "-LOG")%string
                                 (Some false)) (Returned (VStr log_name))
    :: trace (device_loop false jb log_name send_cmd device_list false w1)
  /\ outcome_of (connect_loop_section script_name false jb send_cmd device_list w)
     = match outcome_of (device_loop false jb log_name send_cmd device_list false w1) with
       | inl e => inl e
       | inr _ => inr tt
       end.
Proof.
  intros E. unfold connect_loop_section.
  erewrite bind_returns by (apply invoke_returns; exact E).
  cbn [world trace outcome_of to_value app].
  destruct (direct_loop_balance jb log_name send_cmd device_list false w1) as (L1 & _).
  destruct (device_loop false jb log_name send_cmd device_list false w1)
    as [wl tl [e | jc]] eqn:El; cbn [world trace outcome_of] in *.
  - erewrite bind_raises by exact El. split; reflexivity.
  - erewrite bind_returns by exact El. rewrite (L1 jc eq_refl).
    cbn [ret world trace outcome_of]. now rewrite app_nil_r.
Qed.

(** X15.  Direct path.  In every run the loop hands the jump-connected
    flag on as it found it, so the section, which starts it down, makes
    no call after the loop: the disconnect of lines 144-145 is never
    made.  In a run where no call raises there is one full disconnect
    per device, one output file per device, the section ends normally
    and the session is closed at its end. *)
Theorem direct_clean_run_closes_every_session (script_name : string)
  (jb : jump_profile) (failed_log send_cmd : string) (device_list : list device)
  (w : W) :
  (forall (jump_connected jc' : bool) (w' : W),
     outcome_of (device_loop false jb failed_log send_cmd device_list jump_connected w')
     = inr jc' ->
     jc' = jump_connected)
  /\ (forall (w1 : W) (log_name : string),
        perform (CreateOutputFilename (PyStr.before_dot script_name ++ "-LOG")%string
                                      (Some false)) w = (w1, inr log_name) ->
        trace (connect_loop_section script_name false jb send_cmd device_list w)
        = Called (CreateOutputFilename (PyStr.before_dot script_name ++ "-LOG")%string
                                       (Some false)) (Returned (VStr log_name))
          :: trace (device_loop false jb log_name send_cmd device_list false w1)
        /\ outcome_of (connect_loop_section script_name false jb send_cmd device_list w)
           = match outcome_of (device_loop false jb log_name send_cmd device_list
                                            false w1) with
             | inl e => inl e
             | inr _ => inr tt
             end)
  /\ (all_returned
        (trace (connect_loop_section script_name false jb send_cmd device_list w))
      = true ->
      disconnects
        (trace (connect_loop_section script_name false jb send_cmd device_list w))
      = length device_list
      /\ length (written_files
                   (trace (connect_loop_section script_name false jb send_cmd
                             device_list w)))
         = length device_list
      /\ session_open false
           (trace (connect_loop_section script_name false jb send_cmd device_list w))
         = false
      /\ outcome_of (connect_loop_section script_name false jb send_cmd device_list w)
         = inr tt).
Proof.
  split; [| split].
  - intros jump_connected jc' w'.
    destruct (direct_loop_balance jb failed_log send_cmd device_list
                jump_connected w') as (L1 & _).
    apply L1.
  - intros w1 log_name. apply direct_section_ends_with_the_loop.
  - apply direct_section_clean.
Qed.

End DirectPath.

(** ** The further properties at work on the scripted collaborators *)

(** X2 on three devices behind the jump box, one of them on a serial
    line. *)
Lemma clean_loop_serves_each_device_once_witness :
  all_returned
    (trace (device_loop true Sim.jb0 "LOG" "show version" [Sim.r1; Sim.r2; Sim.r3] false
                        (Sim.jump_world [Sim.r1; Sim.r2; Sim.r3] Sim.no_fault))) = true
  /\ attempted_hosts
       (trace (device_loop true Sim.jb0 "LOG" "show version" [Sim.r1; Sim.r2; Sim.r3] false
                           (Sim.jump_world [Sim.r1; Sim.r2; Sim.r3] Sim.no_fault)))
     = ["r1"; "r2"]
  /\ length (written_files
       (trace (device_loop true Sim.jb0 "LOG" "show version" [Sim.r1; Sim.r2; Sim.r3] false
                           (Sim.jump_world [Sim.r1; Sim.r2; Sim.r3] Sim.no_fault))))
     = 2.
Proof.
  split; [reflexivity |].
  destruct (clean_loop_serves_each_device_once true Sim.jb0 "LOG" "show version"
              [Sim.r1; Sim.r2; Sim.r3] false
              (Sim.jump_world [Sim.r1; Sim.r2; Sim.r3] Sim.no_fault))
    as (_ & Hfiles & Hhosts & _); [reflexivity |].
  split; [exact Hhosts | exact Hfiles].
Defined.

(** X3 on a device whose direct connect is refused. *)
Lemma failure_log_lines_name_listed_devices_witness :
  In ("LOG", connect_failed_line "r2" " timed out")
     (appended
        (trace (device_loop false Sim.jb0 "LOG" "show version" [Sim.r1; Sim.r2] false
                            (Sim.direct_world [Sim.r1; Sim.r2] Sim.connect_r2_fails))))
  /\ exists d msg,
       In d [Sim.r1; Sim.r2]
       /\ (connect_failed_line "r2" " timed out" = connect_failed_line (hostname d) msg
           \/ (false = false
               /\ connect_failed_line "r2" " timed out"
                  = failure_on_line (hostname d) msg)).
Proof.
  assert (Hin : In ("LOG", connect_failed_line "r2" " timed out")
     (appended
        (trace (device_loop false Sim.jb0 "LOG" "show version" [Sim.r1; Sim.r2] false
                            (Sim.direct_world [Sim.r1; Sim.r2] Sim.connect_r2_fails)))))
    by (left; reflexivity).
  split; [exact Hin |].
  exact (proj2 (failure_log_lines_name_listed_devices false Sim.jb0 "LOG" "show version"
                  [Sim.r1; Sim.r2] false
                  (Sim.direct_world [Sim.r1; Sim.r2] Sim.connect_r2_fails)
                  "LOG" (connect_failed_line "r2" " timed out") Hin)).
Defined.

(** X4 on a tunnel that breaks with an exception no handler names. *)
Lemma unhandled_exception_ends_the_loop_witness :
  first_raised
    (trace (loop_body true Sim.jb0 "LOG" "show version" Sim.r1 false
                      (Sim.jump_world [Sim.r1; Sim.r2] Sim.tunnel_breaks)))
    = Some (SshViaJump "r1" "admin" "pw1", OtherException "bug")
  /\ outcome_of (device_loop true Sim.jb0 "LOG" "show version" [Sim.r1; Sim.r2] false
                             (Sim.jump_world [Sim.r1; Sim.r2] Sim.tunnel_breaks))
     = inl (OtherException "bug")
  /\ appended (trace (device_loop true Sim.jb0 "LOG" "show version" [Sim.r1; Sim.r2] false
                                  (Sim.jump_world [Sim.r1; Sim.r2] Sim.tunnel_breaks)))
     = [].
Proof.
  split; [reflexivity |].
  destruct (unhandled_exception_ends_the_loop true Sim.jb0 "LOG" "show version"
              Sim.r1 [Sim.r2] false (Sim.jump_world [Sim.r1; Sim.r2] Sim.tunnel_breaks)
              (SshViaJump "r1" "admin" "pw1") (OtherException "bug"))
    as (Ho & _ & Ha & _); [reflexivity | reflexivity |].
  split; [exact Ho | exact Ha].
Defined.

(** X5 on a handler whose own disconnect fails. *)
Lemma session_error_leaves_only_from_the_jump_handler_witness :
  outcome_of (device_loop true Sim.jb0 "LOG" "show version" [Sim.r1; Sim.r2] false
                          (Sim.jump_world [Sim.r1; Sim.r2] Sim.handler_disconnect_fails))
    = inl (ConnectError "hung")
  /\ handled (ConnectError "hung") = Some "hung"
  /\ exists t,
       trace (device_loop true Sim.jb0 "LOG" "show version" [Sim.r1; Sim.r2] false
                          (Sim.jump_world [Sim.r1; Sim.r2] Sim.handler_disconnect_fails))
       = t ++ [Called Disconnect (Raised (ConnectError "hung"))].
Proof.
  split; [reflexivity | split; [reflexivity |]].
  destruct (session_error_leaves_only_from_the_jump_handler true Sim.jb0 "LOG"
              "show version" [Sim.r1; Sim.r2] false
              (Sim.jump_world [Sim.r1; Sim.r2] Sim.handler_disconnect_fails)
              (ConnectError "hung") "hung") as (_ & Hlast);
    [reflexivity | reflexivity |].
  exact Hlast.
Defined.

(** X6 on the connect to the first of two devices. *)
Lemma loop_events_belong_to_listed_devices_witness :
  exists d,
    In d [Sim.r1; Sim.r2]
    /\ event_for false Sim.jb0 "LOG" "show version" d
         (Called (Connect "r1" "admin" "pw1" "SSH2") (Returned VNone)) = true.
Proof.
  apply (loop_events_belong_to_listed_devices false Sim.jb0 "LOG" "show version"
           [Sim.r1; Sim.r2] false (Sim.direct_world [Sim.r1; Sim.r2] Sim.no_fault)).
  left. reflexivity.
Defined.

(** X8 on a run with the jump box switched off. *)
Lemma run_keeps_to_the_selected_path_witness :
  In (switch_read false)
     (trace (script_main "m_save_output.py" (Sim.direct_world [Sim.r1] Sim.no_fault)))
  /\ forallb (mode_event false)
       (trace (script_main "m_save_output.py" (Sim.direct_world [Sim.r1] Sim.no_fault)))
     = true.
Proof.
  assert (Hin : In (switch_read false)
     (trace (script_main "m_save_output.py" (Sim.direct_world [Sim.r1] Sim.no_fault))))
    by (do 4 right; left; reflexivity).
  split; [exact Hin |].
  exact (run_keeps_to_the_selected_path "m_save_output.py"
           (Sim.direct_world [Sim.r1] Sim.no_fault) false Hin).
Defined.

(** X10 on a tab that is connected. *)
Lemma named_exception_leaves_at_the_call_that_raised_witness :
  outcome_of (script_main "m_save_output.py" Sim.connected_world)
    = inl (ScriptError "This script must be launched in a not-connected tab.")
  /\ ((ScriptError "This script must be launched in a not-connected tab."
       = ScriptError "This script must be launched in a not-connected tab."
       /\ exists t,
            trace (script_main "m_save_output.py" Sim.connected_world)
            = t ++ [Called IsConnected (Returned (VBool true))])
      \/ exists t c,
           trace (script_main "m_save_output.py" Sim.connected_world)
           = t ++ [Called c
                     (Raised (ScriptError
                                "This script must be launched in a not-connected tab."))]).
Proof.
  split; [reflexivity |].
  apply (named_exception_leaves_at_the_call_that_raised "m_save_output.py"
           Sim.connected_world); reflexivity.
Defined.

(** X12 on a message padded with blanks and a line feed. *)
Lemma logged_message_ignores_surrounding_space_witness :
  connect_failed_line "r2" ("  " ++ "timed out" ++ PyStr.nl)
  = connect_failed_line "r2" "timed out".
Proof.
  apply (logged_message_ignores_surrounding_space "r2" "timed out" "  " PyStr.nl);
    reflexivity.
Defined.

(** X13 on the name of this script. *)
Lemma failure_log_named_after_script_stem_witness :
  exists o tail,
    trace (connect_loop_section "m_save_output.py" false Sim.jb0 "show version" [Sim.r1]
             (Sim.direct_world [Sim.r1] Sim.no_fault))
    = Called (CreateOutputFilename "m_save_output-LOG" (Some false)) o :: tail.
Proof.
  apply (failure_log_named_after_script_stem "m_save_output" "py" false Sim.jb0
           "show version" [Sim.r1] (Sim.direct_world [Sim.r1] Sim.no_fault)).
  reflexivity.
Defined.

(** X15 on two devices reached directly, none of which fails. *)
Lemma direct_clean_run_closes_every_session_witness :
  all_returned
    (trace (connect_loop_section "m_save_output.py" false Sim.jb0 "show version"
              [Sim.r1; Sim.r2] (Sim.direct_world [Sim.r1; Sim.r2] Sim.no_fault))) = true
  /\ disconnects
       (trace (connect_loop_section "m_save_output.py" false Sim.jb0 "show version"
                 [Sim.r1; Sim.r2] (Sim.direct_world [Sim.r1; Sim.r2] Sim.no_fault))) = 2
  /\ session_open false
       (trace (connect_loop_section "m_save_output.py" false Sim.jb0 "show version"
                 [Sim.r1; Sim.r2] (Sim.direct_world [Sim.r1; Sim.r2] Sim.no_fault)))
     = false.
Proof.
  split; [reflexivity |].
  destruct (direct_clean_run_closes_every_session "m_save_output.py" Sim.jb0 "LOG"
              "show version" [Sim.r1; Sim.r2]
              (Sim.direct_world [Sim.r1; Sim.r2] Sim.no_fault))
    as (_ & _ & Hclean).
  destruct (Hclean eq_refl) as (Hd & _ & Hs & _).
  split; [exact Hd | exact Hs].
Defined.
